(** * TABE: the online ensemble orchestrator and its dataset/loader cache

    A shallow embedding of
      - [tabe/data_provider/dataset_loader.py] ([_data_provider],
        [get_data_provider] and the two module-level cache dictionaries), and
      - [tabe/models/tabe.py] ([TabeModel.train], [TabeModel.proceed_onestep],
        [TabeModel.test]).

    Conventions of the embedding.
      - Array elements (numpy / torch scalars) are an abstract type [V]: the
        orchestrator only moves them around, and [np.zeros] needs a zero.
      - Python exceptions raised by the two modules themselves (failed
        [assert], out-of-range index, missing dictionary key, missing
        attribute, numpy shape errors) are modelled by [result].
      - The collaborators that live outside the two modules (combiner,
        adjuster, dataset classes, torch's DataLoader, the contents of
        uninitialised numpy buffers) are interfaces, given as type classes.
        The calls of the combiner and of the adjuster are assumed to return;
        the constructors of the dataset classes and of the DataLoader may
        raise, and so may the loader's iteration where it calls a collate
        function that [dataset_loader.py] does not define.
      - A 1-D buffer made by [np.empty_like(y)] has the dtype of [data_y]:
        a value stored into it is converted to that dtype.
      - Mutable state (the module-level caches, the attributes of the
        [TabeModel] instance, the state of the combiner and of the adjuster)
        is threaded through a state-and-exception monad; when an exception is
        raised the state is the one reached at the point of the raise. *)

From stdpp Require Import gmap strings list fin_maps.

Set Default Proof Using "Type".

(** ** Exceptions *)

Inductive exn : Type :=
  | AssertionError
  | AttributeError
  | IndexError
  | KeyError
  | NameError
  | ValueError
  | OtherError (name : string).

Inductive result (A : Type) : Type :=
  | Ok (a : A)
  | Raise (e : exn).
Arguments Ok {A} a.
Arguments Raise {A} e.

Definition result_bind {A B} (r : result A) (k : A -> result B) : result B :=
  match r with
  | Ok a => k a
  | Raise e => Raise e
  end.

Definition from_option {A} (e : exn) (o : option A) : result A :=
  match o with
  | Some a => Ok a
  | None => Raise e
  end.

(** ** Arrays *)

(** A 2-D numpy array: [shape = (length rows, ncols)]. *)
Record ndarray2 (V : Type) : Type := Ndarray2 {
  ncols : nat;
  rows : list (list V)
}.
Arguments Ndarray2 {V} ncols rows.
Arguments ncols {V} _.
Arguments rows {V} _.

(** A 3-D tensor [(batch, steps, features)], as nested lists. *)
Definition tensor3 (V : Type) : Type := list (list (list V)).

(** One item produced by a loader. *)
Record Batch (V : Type) : Type := MkBatch {
  batch_x : tensor3 V;
  batch_y : tensor3 V;
  batch_x_mark : tensor3 V;
  batch_y_mark : tensor3 V
}.
Arguments MkBatch {V} batch_x batch_y batch_x_mark batch_y_mark.
Arguments batch_x {V} _.
Arguments batch_y {V} _.
Arguments batch_x_mark {V} _.
Arguments batch_y_mark {V} _.

Section Arrays.
Context {V : Type}.

(** [a[:, -1]] on a list of rows: the last entry of every row. *)
Fixpoint last_of_rows (rs : list (list V)) : result (list V) :=
  match rs with
  | [] => Ok []
  | r :: rs' =>
      result_bind (from_option IndexError (last r)) (fun x =>
      result_bind (last_of_rows rs') (fun xs => Ok (x :: xs)))
  end.

(** [a[k:, -1]]: rows from [k] on, last column.  Index [-1] is out of bounds
    on an axis of size 0. *)
Definition slice_last_col (k : nat) (a : ndarray2 V) : result (list V) :=
  if ncols a =? 0 then Raise IndexError
  else last_of_rows (drop k (rows a)).

(** [a[:, -1]]. *)
Definition last_col (a : ndarray2 V) : result (list V) := slice_last_col 0 a.

(** numpy's broadcasting of a 1-D source into a 1-D destination of length
    [n]: equal lengths, or a source of length 1 repeated. *)
Definition broadcast_to (n : nat) (src : list V) : result (list V) :=
  if length src =? n then Ok src
  else match src with
       | [x] => Ok (replicate n x)
       | _ => Raise ValueError
       end.

(** [r[-1] = x] on one row. *)
Definition set_last (r : list V) (x : V) : list V := <[pred (length r) := x]> r.

(** [a[:, -1] = src]. *)
Definition assign_last_col (a : ndarray2 V) (src : list V) : result (ndarray2 V) :=
  if ncols a =? 0 then Raise IndexError
  else result_bind (broadcast_to (length (rows a)) src) (fun col =>
       Ok (Ndarray2 (ncols a) (zip_with set_last (rows a) col))).

(** [arr[t] = x] on a 1-D array whose dtype converts scalars by [astype]:
    the index is checked, and what is stored is the converted value. *)
Definition setitem (astype : V -> V) (arr : list V) (t : nat) (x : V) : result (list V) :=
  if t <? length arr then Ok (<[t := astype x]> arr) else Raise IndexError.

(** [m[:, t] = src] on a list of rows: the index is checked, then the source
    is broadcast along the column. *)
Definition assign_col (m : list (list V)) (t : nat) (src : list V) : result (list (list V)) :=
  if forallb (fun r => t <? length r) m
  then result_bind (broadcast_to (length m) src) (fun col =>
       Ok (zip_with (fun r x => <[t := x]> r) m col))
  else Raise IndexError.

(** [m[i] = src] on a list of rows. *)
Definition assign_row (m : list (list V)) (i : nat) (src : list V) : result (list (list V)) :=
  match m !! i with
  | None => Raise IndexError
  | Some r => result_bind (broadcast_to (length r) src) (fun r' => Ok (<[i := r']> m))
  end.

(** [np.zeros((n, f))]. *)
Definition np_zeros (zero : V) (n f : nat) : ndarray2 V :=
  Ndarray2 f (replicate n (replicate f zero)).

(** [t[0, -1, -1]]. *)
Definition item_0_m1_m1 (t : tensor3 V) : result V :=
  result_bind (from_option IndexError (t !! 0)) (fun steps =>
  result_bind (from_option IndexError (last steps)) (fun feats =>
  from_option IndexError (last feats))).

(** The tensor [t] with entry [[0, -1, -1]] replaced by [x]. *)
Definition with_item_0_m1_m1 (t : tensor3 V) (x : V) : tensor3 V :=
  match t with
  | [] => []
  | steps :: rest =>
      match last steps with
      | None => t
      | Some feats => <[pred (length steps) := set_last feats x]> steps :: rest
      end
  end.

End Arrays.

(** ** [dataset_loader.py] *)

(** The fields of [configs] that the two modules read. *)
Record Configs : Type := MkConfigs {
  data : string;
  embed : string;
  batch_size : nat;
  freq : string;
  task_name : string;
  root_path : string;
  data_path : string;
  seq_len : nat;
  label_len : nat;
  pred_len : nat;
  features : string;
  target : string;
  seasonal_patterns : string;
  num_workers : nat;
  inverse : bool
}.

Inductive DataClass : Type :=
  | Dataset_TABE_File
  | Dataset_TABE_Online.

Definition data_dict : gmap string DataClass :=
  {[ "TABE_FILE"%string := Dataset_TABE_File; "TABE_ONLINE"%string := Dataset_TABE_Online ]}.

(** The keyword arguments of the three constructor calls of [_data_provider]. *)
Inductive DataArgs : Type :=
  | AnomalyArgs (args : Configs) (root_path : string) (win_size : nat) (flag : string)
  | ClassificationArgs (args : Configs) (root_path : string) (flag : string)
  | ForecastArgs (args : Configs) (root_path data_path flag : string)
      (size : list nat) (features target : string) (timeenc : nat)
      (freq seasonal_patterns : string).

(** A dataset object.  [ds_id] is the identity of the object; [data_y],
    [scale] and [inverse_transform] are the attributes the orchestrator uses;
    [data_y_astype] is the conversion of a scalar to [data_y.dtype]. *)
Record Dataset (V : Type) : Type := MkDataset {
  ds_id : nat;
  ds_class : DataClass;
  ds_args : DataArgs;
  data_y : ndarray2 V;
  data_y_astype : V -> V;
  scale : bool;
  inverse_transform : ndarray2 V -> ndarray2 V
}.
Arguments MkDataset {V} ds_id ds_class ds_args data_y data_y_astype scale inverse_transform.
Arguments ds_id {V} _.
Arguments ds_class {V} _.
Arguments ds_args {V} _.
Arguments data_y {V} _.
Arguments data_y_astype {V} _ _.
Arguments scale {V} _.
Arguments inverse_transform {V} _ _.

(** A [torch.utils.data.DataLoader] object: identity and constructor
    arguments.  [dl_collate_max_len] is [Some n] when the loader was given
    [collate_fn=lambda x: collate_fn(x, max_len=n)] (the classification
    branch), [None] when it collates by default. *)
Record DataLoader (V : Type) : Type := MkDataLoader {
  dl_id : nat;
  dl_dataset : Dataset V;
  dl_batch_size : nat;
  dl_shuffle : bool;
  dl_num_workers : nat;
  dl_drop_last : bool;
  dl_collate_max_len : option nat
}.
Arguments MkDataLoader {V} dl_id dl_dataset dl_batch_size dl_shuffle dl_num_workers dl_drop_last dl_collate_max_len.
Arguments dl_id {V} _.
Arguments dl_dataset {V} _.
Arguments dl_batch_size {V} _.
Arguments dl_shuffle {V} _.
Arguments dl_num_workers {V} _.
Arguments dl_drop_last {V} _.
Arguments dl_collate_max_len {V} _.

(** What lies outside the two modules: the dataset classes (whether a
    constructor call raises, and what it loads when it returns), torch's
    DataLoader (whether the constructor raises on its arguments - it raises
    [ValueError] for a batch size of 0 and for [shuffle=True] over an empty
    dataset -, and the batches one pass yields, of which [len(loader)] is
    the number), and the contents of a buffer returned by [np.empty] /
    [np.empty_like] (indexed by allocation and by position). *)
Class Runtime (V : Type) : Type := {
  zero : V;
  dataset_raises : DataClass -> DataArgs -> option exn;
  dataset_data_y : DataClass -> DataArgs -> ndarray2 V;
  dataset_astype : DataClass -> DataArgs -> V -> V;
  dataset_scale : DataClass -> DataArgs -> bool;
  dataset_inverse_transform : DataClass -> DataArgs -> ndarray2 V -> ndarray2 V;
  loader_raises : DataLoader V -> option exn;
  loader_batches : DataLoader V -> list (Batch V);
  uninitialized : nat -> nat -> V
}.

(** The module-level state of [dataset_loader.py]; [next_id] is the identity
    the next constructed object receives. *)
Record Provider (V : Type) : Type := MkProvider {
  _cache_dataset : gmap string (Dataset V);
  _cache_dataloader : gmap string (DataLoader V);
  next_id : nat
}.
Arguments MkProvider {V} _cache_dataset _cache_dataloader next_id.
Arguments _cache_dataset {V} _.
Arguments _cache_dataloader {V} _.
Arguments next_id {V} _.

Section DatasetLoader.
Context {V : Type} `{!Runtime V}.

(** The dataset object with identity [id] that [Data(...)] yields when it
    returns. *)
Definition Data_new (id : nat) (cls : DataClass) (a : DataArgs) : Dataset V :=
  MkDataset id cls a (dataset_data_y cls a) (dataset_astype cls a) (dataset_scale cls a)
    (dataset_inverse_transform cls a).

(** The call [Data(...)]: it raises, or returns a new object. *)
Definition Data_call (id : nat) (cls : DataClass) (a : DataArgs) : result (Dataset V) :=
  match dataset_raises cls a with
  | Some e => Raise e
  | None => Ok (Data_new id cls a)
  end.

(** The call [DataLoader(...)] that would build [l]: it raises, or returns
    [l]. *)
Definition DataLoader_call (l : DataLoader V) : result (DataLoader V) :=
  match loader_raises l with
  | Some e => Raise e
  | None => Ok l
  end.

Definition _data_provider (configs : Configs) (flag : string) (step_by_step : bool)
    (id : nat) : result (Dataset V * DataLoader V) :=
  result_bind (from_option KeyError (data_dict !! data configs)) (fun Data =>
  let timeenc := if negb (bool_decide (embed configs = "timeF"%string)) then 0 else 1 in
  let shuffle_flag :=
    if bool_decide (flag = "test"%string) || bool_decide (flag = "TEST"%string) || step_by_step
    then false else true in
  let drop_last := false in
  let batch_size := if negb step_by_step then batch_size configs else 1 in
  let freq := freq configs in
  if bool_decide (task_name configs = "anomaly_detection"%string) then
    let drop_last := false in
    result_bind (Data_call id Data
      (AnomalyArgs configs (root_path configs) (seq_len configs) flag)) (fun data_set =>
    result_bind (DataLoader_call (MkDataLoader (S id) data_set batch_size shuffle_flag
      (num_workers configs) drop_last None)) (fun data_loader =>
    Ok (data_set, data_loader)))
  else if bool_decide (task_name configs = "classification"%string) then
    let drop_last := false in
    result_bind (Data_call id Data
      (ClassificationArgs configs (root_path configs) flag)) (fun data_set =>
    result_bind (DataLoader_call (MkDataLoader (S id) data_set batch_size shuffle_flag
      (num_workers configs) drop_last (Some (seq_len configs)))) (fun data_loader =>
    Ok (data_set, data_loader)))
  else
    let drop_last := if bool_decide (data configs = "m4"%string) then false else drop_last in
    result_bind (Data_call id Data
      (ForecastArgs configs (root_path configs) (data_path configs) flag
         [seq_len configs; label_len configs; pred_len configs]
         (features configs) (target configs) timeenc freq
         (seasonal_patterns configs))) (fun data_set =>
    result_bind (DataLoader_call (MkDataLoader (S id) data_set batch_size shuffle_flag
      (num_workers configs) drop_last None)) (fun data_loader =>
    Ok (data_set, data_loader)))).

Definition cache_key (flag : string) (step_by_step : bool) : string :=
  if step_by_step then flag +:+ "_stb"%string else flag.

Definition get_data_provider (configs : Configs) (flag : string) (step_by_step : bool)
    (p : Provider V) : result (Dataset V * DataLoader V) * Provider V :=
  let key := cache_key flag step_by_step in
  let built :=
    match _cache_dataset p !! key with
    | Some _ => Ok p
    | None =>
        result_bind (_data_provider configs flag step_by_step (next_id p))
          (fun '(data_set, data_loader) =>
             Ok (MkProvider (<[key := data_set]> (_cache_dataset p))
                            (<[key := data_loader]> (_cache_dataloader p))
                            (2 + next_id p)))
    end in
  match built with
  | Raise e => (Raise e, p)
  | Ok p' =>
      (result_bind (from_option KeyError (_cache_dataset p' !! key)) (fun data_set =>
       result_bind (from_option KeyError (_cache_dataloader p' !! key)) (fun data_loader =>
       Ok (data_set, data_loader))), p')
  end.

(** The states of the two caches a program can reach: the module is loaded
    (both dictionaries empty), then requests are made, whether they return
    or raise. *)
Inductive provider_reachable : Provider V -> Prop :=
  | provider_loaded n : provider_reachable (MkProvider ∅ ∅ n)
  | provider_requested configs flag step_by_step p :
      provider_reachable p ->
      provider_reachable (get_data_provider configs flag step_by_step p).2.

End DatasetLoader.

(** ** [tabe.py]: collaborators and state *)

(** The combiner: an object with state [CS].  [training = None] is a call
    that omits the argument (the combiner's own default applies).
    [combiner_basemodels] is [len(self.combiner_model.basemodels)]. *)
Class Combiner (V CS : Type) : Type := {
  combiner_train : CS -> CS;
  combiner_proceed_onestep :
    CS -> tensor3 V -> tensor3 V -> tensor3 V -> tensor3 V -> option bool ->
    (V * list V) * CS;
  combiner_basemodels : CS -> nat
}.

(** The adjuster: an object with state [AS]. *)
Class Adjuster (V AS : Type) : Type := {
  adjuster_train : AS -> list V -> list V -> list V * AS;
  adjuster_proceed_onestep : AS -> V -> V -> bool -> V * AS
}.

(** The attributes of a [TabeModel] instance.  [y_hat] and [truths] are
    [None] after [__init__]; [y_hat_cbm] does not exist until [train] sets
    it, which is [None] here too. *)
Record TabeModel (V CS AS : Type) : Type := MkTabeModel {
  configs : Configs;
  combiner_model : CS;
  adjuster_model : option AS;
  y_hat : option (list V);
  truths : option (list V);
  y_hat_cbm : option (list V)
}.
Arguments MkTabeModel {V CS AS} configs combiner_model adjuster_model y_hat truths y_hat_cbm.
Arguments configs {V CS AS} _.
Arguments combiner_model {V CS AS} _.
Arguments adjuster_model {V CS AS} _.
Arguments y_hat {V CS AS} _.
Arguments truths {V CS AS} _.
Arguments y_hat_cbm {V CS AS} _.

(** The whole mutable state: the provider's caches, the number of buffers
    allocated so far with [np.empty], and the model instance. *)
Record World (V CS AS : Type) : Type := MkWorld {
  provider : Provider V;
  allocations : nat;
  self : TabeModel V CS AS
}.
Arguments MkWorld {V CS AS} provider allocations self.
Arguments provider {V CS AS} _.
Arguments allocations {V CS AS} _.
Arguments self {V CS AS} _.

(** What [test] returns (an 8-tuple in the source). *)
Record TestResult (V : Type) : Type := MkTestResult {
  r_y : list V;
  r_tabe_pred : list V;
  r_y_hat_cbm : list V;
  r_y_hat_bsm : list (list V);
  r_y_hat_q_low : list V;
  r_y_hat_q_high : list V;
  r_buy_threshold_q : option (list V);
  r_devi_stddev : list V
}.
Arguments MkTestResult {V} r_y r_tabe_pred r_y_hat_cbm r_y_hat_bsm r_y_hat_q_low r_y_hat_q_high r_buy_threshold_q r_devi_stddev.
Arguments r_y {V} _.
Arguments r_tabe_pred {V} _.
Arguments r_y_hat_cbm {V} _.
Arguments r_y_hat_bsm {V} _.
Arguments r_y_hat_q_low {V} _.
Arguments r_y_hat_q_high {V} _.
Arguments r_buy_threshold_q {V} _.
Arguments r_devi_stddev {V} _.

#[global] Instance result_ret : MRet result := fun A a => Ok a.
#[global] Instance result_mbind : MBind result := fun A B k r => result_bind r k.

Section Tabe.
Context {V CS AS : Type} `{!Runtime V, !Combiner V CS, !Adjuster V AS}.

Abbreviation world := (World V CS AS).
Abbreviation model := (TabeModel V CS AS).

(** *** The state-and-exception monad *)

Definition M (A : Type) : Type := world -> result A * world.

Definition ret {A} (a : A) : M A := fun w => (Ok a, w).
Definition raise {A} (e : exn) : M A := fun w => (Raise e, w).
Definition bind {A B} (c : M A) (k : A -> M B) : M B :=
  fun w => match c w with
           | (Ok a, w') => k a w'
           | (Raise e, w') => (Raise e, w')
           end.
Definition lift {A} (r : result A) : M A := fun w => (r, w).

#[local] Instance M_ret : MRet M := @ret.
#[local] Instance M_mbind : MBind M := fun A B k c => bind c k.

Definition py_assert (b : bool) : M unit :=
  if b then ret tt else raise AssertionError.

Definition get_self : M model := fun w => (Ok (self w), w).
Definition modify_self (f : model -> model) : M unit :=
  fun w => (Ok tt, MkWorld (provider w) (allocations w) (f (self w))).

Definition set_combiner_model (c : CS) (s : model) : model :=
  MkTabeModel (configs s) c (adjuster_model s) (y_hat s) (truths s) (y_hat_cbm s).
Definition set_adjuster_model (a : option AS) (s : model) : model :=
  MkTabeModel (configs s) (combiner_model s) a (y_hat s) (truths s) (y_hat_cbm s).
Definition set_y_hat (l : option (list V)) (s : model) : model :=
  MkTabeModel (configs s) (combiner_model s) (adjuster_model s) l (truths s) (y_hat_cbm s).
Definition set_truths (l : option (list V)) (s : model) : model :=
  MkTabeModel (configs s) (combiner_model s) (adjuster_model s) (y_hat s) l (y_hat_cbm s).
Definition set_y_hat_cbm (l : option (list V)) (s : model) : model :=
  MkTabeModel (configs s) (combiner_model s) (adjuster_model s) (y_hat s) (truths s) l.

(** [get_data_provider(...)], run on the module-level caches. *)
Definition call_get_data_provider (c : Configs) (flag : string) (step_by_step : bool)
    : M (Dataset V * DataLoader V) :=
  fun w => let '(r, p) := get_data_provider c flag step_by_step (provider w) in
           (r, MkWorld p (allocations w) (self w)).

(** [np.empty_like(y)]: a fresh buffer as long as [y], contents arbitrary. *)
Definition np_empty_like (y : list V) : M (list V) :=
  fun w => (Ok (uninitialized (allocations w) <$> seq 0 (length y)),
            MkWorld (provider w) (S (allocations w)) (self w)).

(** [np.empty((n, m))]. *)
Definition np_empty2 (n m : nat) : M (list (list V)) :=
  fun w => (Ok ((fun i => (fun j => uninitialized (allocations w) (i * m + j)) <$> seq 0 m)
                  <$> seq 0 n),
            MkWorld (provider w) (S (allocations w)) (self w)).

(** [np.concatenate((a, np.array([x])))]; [a = None] is not an array. *)
Definition np_concatenate1 (a : option (list V)) (x : V) : M (list V) :=
  match a with
  | Some l => ret (l ++ [x])
  | None => raise ValueError
  end.

Definition call_combiner_train : M unit :=
  modify_self (fun s => set_combiner_model (combiner_train (combiner_model s)) s).

Definition call_combiner_proceed_onestep
    (bx by_ bxm bym : tensor3 V) (training : option bool) : M (V * list V) :=
  fun w =>
    let '(r, c) := combiner_proceed_onestep (combiner_model (self w)) bx by_ bxm bym training in
    (Ok r, MkWorld (provider w) (allocations w) (set_combiner_model c (self w))).

Definition call_adjuster_train (a : AS) (y y_hat_cbm : list V) : M (list V) :=
  fun w =>
    let '(r, a') := adjuster_train a y y_hat_cbm in
    (Ok r, MkWorld (provider w) (allocations w) (set_adjuster_model (Some a') (self w))).

Definition call_adjuster_proceed_onestep (a : AS) (y y_hat_cbm : V) (training : bool) : M V :=
  fun w =>
    let '(r, a') := adjuster_proceed_onestep a y y_hat_cbm training in
    (Ok r, MkWorld (provider w) (allocations w) (set_adjuster_model (Some a') (self w))).

(** *** [TabeModel.__init__] *)

Definition TabeModel_init (c : Configs) (combiner : CS) (adjuster : option AS) : model :=
  MkTabeModel c combiner adjuster None None None.

(** *** Iterating a loader

    [for ... in enumerate(loader)]: the batches of one pass.  A loader that
    was given the lambda of the classification branch collates each batch by
    calling the global name [collate_fn], which [dataset_loader.py] neither
    defines nor imports: fetching its first batch raises [NameError], before
    the body of the loop has run once.  ([len(loader)] does not collate.) *)
Definition loader_iterate (l : DataLoader V) : result (list (Batch V)) :=
  match dl_collate_max_len l, loader_batches l with
  | Some _, _ :: _ => Raise NameError
  | _, bs => Ok bs
  end.

(** *** [TabeModel.train] *)

(** The body of the loop, from step [t] on; [astype] is the conversion to
    the dtype of the buffer [y_hat_cbm]. *)
Fixpoint train_loop (astype : V -> V) (t : nat) (bs : list (Batch V))
    (y_hat_cbm : list V) : M (list V) :=
  match bs with
  | [] => ret y_hat_cbm
  | b :: bs' =>
      '(y_hat_t, _) ← call_combiner_proceed_onestep
                        (batch_x b) (batch_y b) (batch_x_mark b) (batch_y_mark b) None;
      y_hat_cbm ← lift (setitem astype y_hat_cbm t y_hat_t);
      train_loop astype (S t) bs' y_hat_cbm
  end.

Definition train : M unit :=
  call_combiner_train;;
  s ← get_self;
  '(train_dataset, train_loader) ← call_get_data_provider (configs s) "ensemble_train" true;
  y ← lift (slice_last_col (seq_len (configs s)) (data_y train_dataset));
  py_assert (bool_decide (length y = length (loader_batches train_loader)));;
  y_hat_cbm ← np_empty_like y;
  batches ← lift (loader_iterate train_loader);
  y_hat_cbm ← train_loop (data_y_astype train_dataset) 0 batches y_hat_cbm;
  s ← get_self;
  y_hat ← match adjuster_model s with
          | None => ret y_hat_cbm
          | Some a => call_adjuster_train a y y_hat_cbm
          end;
  modify_self (set_truths (Some y));;
  modify_self (set_y_hat (Some y_hat));;
  modify_self (set_y_hat_cbm (Some y_hat_cbm)).

(** *** [TabeModel.proceed_onestep] *)

Definition proceed_onestep (bx by_ bxm bym : tensor3 V) (training : bool)
    : M (V * V * V * list V) :=
  py_assert (bool_decide (length bx = 1) && bool_decide (length by_ = 1));;
  y ← lift (item_0_m1_m1 by_);
  '(y_hat_cbm_t, y_hat_bsm) ← call_combiner_proceed_onestep bx by_ bxm bym (Some training);
  s ← get_self;
  y_hat_adj ← match adjuster_model s with
              | None => ret y_hat_cbm_t
              | Some a => call_adjuster_proceed_onestep a y y_hat_cbm_t training
              end;
  let y_hat_tabe := y_hat_adj in
  s ← get_self;
  old ← lift (from_option AttributeError (y_hat_cbm s));
  new ← np_concatenate1 (Some old) y_hat_cbm_t;
  modify_self (set_y_hat_cbm (Some new));;
  s ← get_self;
  new ← np_concatenate1 (y_hat s) y_hat_tabe;
  modify_self (set_y_hat (Some new));;
  s ← get_self;
  new ← np_concatenate1 (truths s) y;
  modify_self (set_truths (Some new));;
  ret (y_hat_tabe, y_hat_adj, y_hat_cbm_t, y_hat_bsm).

(** *** [TabeModel.test] *)

(** The four buffers written by the loop of [test]. *)
Record TestBuffers : Type := MkTestBuffers {
  b_tabe_pred : list V;
  b_y_hat_adj : list V;
  b_y_hat_cbm : list V;
  b_y_hat_bsm : list (list V)
}.

(** The body of the loop, from step [t] on; [astype] is the conversion to
    the dtype of the three 1-D buffers, which were made by
    [np.empty_like(y)].  [y_hat_bsm] was made by [np.empty], in numpy's
    default dtype. *)
Fixpoint test_loop (astype : V -> V) (t : nat) (bs : list (Batch V)) (b : TestBuffers)
    : M TestBuffers :=
  match bs with
  | [] => ret b
  | w :: bs' =>
      '(p_tabe, p_adj, p_cbm, p_bsm) ← proceed_onestep
          (batch_x w) (batch_y w) (batch_x_mark w) (batch_y_mark w) true;
      tabe_pred ← lift (setitem astype (b_tabe_pred b) t p_tabe);
      y_hat_adj ← lift (setitem astype (b_y_hat_adj b) t p_adj);
      y_hat_cbm ← lift (setitem astype (b_y_hat_cbm b) t p_cbm);
      y_hat_bsm ← lift (assign_col (b_y_hat_bsm b) t p_bsm);
      test_loop astype (S t) bs' (MkTestBuffers tabe_pred y_hat_adj y_hat_cbm y_hat_bsm)
  end.

(** Lines 150-152, for the indices [idx] of the [for] loop; [n] is [len(y)]
    at that point. *)
Fixpoint invert_bsm_loop (test_set : Dataset V) (n n_features : nat) (idx : list nat)
    (y_hat_bsm : list (list V)) : result (list (list V)) :=
  match idx with
  | [] => Ok y_hat_bsm
  | i :: idx' =>
      let data_y_hat_bsm := np_zeros zero n n_features in
      row ← from_option IndexError (y_hat_bsm !! i);
      data_y_hat_bsm ← assign_last_col data_y_hat_bsm row;
      col ← last_col (inverse_transform test_set data_y_hat_bsm);
      y_hat_bsm ← assign_row y_hat_bsm i col;
      invert_bsm_loop test_set n n_features idx' y_hat_bsm
  end.

(** Lines 129-152: the body of [if need_to_invert_data]. *)
Definition invert_outputs (test_set : Dataset V)
    (y tabe_pred y_hat_cbm : list V) (y_hat_bsm : list (list V))
    : result (list V * list V * list V * list (list V)) :=
  let n_features := ncols (data_y test_set) in
  let data_y_ := np_zeros zero (length y) n_features in
  let data_final_pred := np_zeros zero (length y) n_features in
  let data_buy_threshold_q := np_zeros zero (length y) n_features in
  let data_y_hat_cbm := np_zeros zero (length y) n_features in
  data_y_ ← assign_last_col data_y_ y;
  data_final_pred ← assign_last_col data_final_pred tabe_pred;
  data_y_hat_cbm ← assign_last_col data_y_hat_cbm y_hat_cbm;
  y ← last_col (inverse_transform test_set data_y_);
  tabe_pred ← last_col (inverse_transform test_set data_final_pred);
  y_hat_cbm ← last_col (inverse_transform test_set data_y_hat_cbm);
  y_hat_bsm ← invert_bsm_loop test_set (length y) n_features
                 (seq 0 (length y_hat_bsm)) y_hat_bsm;
  Ok (y, tabe_pred, y_hat_cbm, y_hat_bsm).

(** Lines 98-115: what [test] has collected when the loop ends. *)
Record TestRun : Type := MkTestRun {
  c_test_set : Dataset V;
  c_test_loader : DataLoader V;
  c_y : list V;
  c_buffers : TestBuffers;
  c_y_hat_q_low : list V;
  c_y_hat_q_high : list V;
  c_devi_stddev : list V
}.

Definition test_collect : M TestRun :=
  s ← get_self;
  '(test_set, test_loader) ← call_get_data_provider (configs s) "test" true;
  y ← lift (slice_last_col (seq_len (configs s)) (data_y test_set));
  tabe_pred ← np_empty_like y;
  y_hat_adj ← np_empty_like y;
  y_hat_cbm ← np_empty_like y;
  y_hat_bsm ← np_empty2 (combiner_basemodels (combiner_model s)) (length y);
  y_hat_q_low ← np_empty_like y;
  y_hat_q_high ← np_empty_like y;
  devi_stddev ← np_empty_like y;
  batches ← lift (loader_iterate test_loader);
  b ← test_loop (data_y_astype test_set) 0 batches
        (MkTestBuffers tabe_pred y_hat_adj y_hat_cbm y_hat_bsm);
  ret (MkTestRun test_set test_loader y b y_hat_q_low y_hat_q_high devi_stddev).

Definition test : M (TestResult V) :=
  s ← get_self;
  c ← test_collect;
  let test_set := c_test_set c in
  let b := c_buffers c in
  let need_to_invert_data := scale test_set && inverse (configs s) in
  '(y, tabe_pred, y_hat_cbm, y_hat_bsm) ←
      (if need_to_invert_data
       then lift (invert_outputs test_set (c_y c)
                    (b_tabe_pred b) (b_y_hat_cbm b) (b_y_hat_bsm b))
       else ret (c_y c, b_tabe_pred b, b_y_hat_cbm b, b_y_hat_bsm b));
  ret (MkTestResult y tabe_pred y_hat_cbm y_hat_bsm
         (c_y_hat_q_low c) (c_y_hat_q_high c) None (c_devi_stddev c)).

(** *** Runs: sequences of calls on one instance *)

Inductive call : Type :=
  | CallTrain
  | CallTest
  | CallProceedOnestep (bx by_ bxm bym : tensor3 V) (training : bool).

Definition run_call (c : call) : M unit :=
  match c with
  | CallTrain => train
  | CallTest => _ ← test; ret tt
  | CallProceedOnestep bx by_ bxm bym training =>
      _ ← proceed_onestep bx by_ bxm bym training; ret tt
  end.

(** The worlds a program can reach: it constructs the instance, then calls
    its methods, whether they return or raise. *)
Inductive reachable : world -> Prop :=
  | reachable_init p n c combiner adjuster :
      reachable (MkWorld p n (TabeModel_init c combiner adjuster))
  | reachable_call w c :
      reachable w -> reachable (run_call c w).2.

(** The combiner run over the windows [bs] in order, from state [c]: the
    predictions it returns and the state it ends in. *)
Fixpoint combiner_predictions (c : CS) (bs : list (Batch V)) (training : option bool)
    : list V * CS :=
  match bs with
  | [] => ([], c)
  | b :: bs' =>
      let '((p, _), c1) := combiner_proceed_onestep c
                             (batch_x b) (batch_y b) (batch_x_mark b) (batch_y_mark b)
                             training in
      let '(ps, c2) := combiner_predictions c1 bs' training in
      (p :: ps, c2)
  end.

(** The world [w] with other stored histories. *)
Definition with_histories (hy ht hc : option (list V)) (w : world) : world :=
  MkWorld (provider w) (allocations w)
    (set_y_hat hy (set_truths ht (set_y_hat_cbm hc (self w)))).

(** The three stored histories are in step: all three missing (before the
    first [train]) or all three present with one length. *)
Definition histories_in_step (s : model) : Prop :=
  match y_hat s, truths s, y_hat_cbm s with
  | None, None, None => True
  | Some hy, Some ht, Some hc => length hy = length ht ∧ length ht = length hc
  | _, _, _ => False
  end.

(** *** The reconstruction pattern, in the specification's words

    A series is embedded into a matrix of full feature width whose columns
    are all zero except the target (last) one, the matrix goes through the
    dataset's inverse transform, and the target column is read back. *)

Definition embed_in_target_column (n_features : nat) (series : list V) : ndarray2 V :=
  Ndarray2 n_features ((fun x => replicate (pred n_features) zero ++ [x]) <$> series).

Definition extract_target_column (a : ndarray2 V) : option (list V) :=
  mapM last (rows a).

Definition reconstruct_transform_extract (ds : Dataset V) (series : list V)
    : option (list V) :=
  extract_target_column
    (inverse_transform ds (embed_in_target_column (ncols (data_y ds)) series)).

End Tabe.

(** ** A concrete instance, used to run the model *)

Module Demo.

Open Scope Z_scope.

(** Forecast windows over [rs] with input length [L] and one predicted step:
    item [i] has input rows [i .. i+L-1] and target row [i+L]; batch size 1. *)
Definition windows (L : nat) (rs : list (list Z)) : list (Batch Z) :=
  (fun i => MkBatch [take L (drop i rs)] [take 1 (drop (i + L) rs)] [[]] [[]])
    <$> seq 0 (length rs - L).

Definition split_rows (flag : string) : list (list Z) :=
  if bool_decide (flag = "test"%string)
  then [[1; 10]; [2; 20]; [3; 30]; [4; 40]; [5; 50]]
  else [[6; 60]; [7; 70]; [8; 80]; [9; 90]].

Definition args_flag (a : DataArgs) : string :=
  match a with
  | AnomalyArgs _ _ _ f => f
  | ClassificationArgs _ _ f => f
  | ForecastArgs _ _ _ f _ _ _ _ _ _ => f
  end.

Definition args_seq_len (a : DataArgs) : nat :=
  match a with
  | AnomalyArgs c _ _ _ => seq_len c
  | ClassificationArgs c _ _ => seq_len c
  | ForecastArgs c _ _ _ _ _ _ _ _ _ => seq_len c
  end.

(** Row-wise affine rescaling: column [j] becomes [(j + 2) * x + 1]. *)
Definition rescale (a : ndarray2 Z) : ndarray2 Z :=
  Ndarray2 (ncols a) (imap (fun j x => (Z.of_nat j + 2) * x + 1) <$> rows a).

(** The items of a dataset: a [Dataset_TABE_File] has one window per truth,
    a [Dataset_TABE_Online] one window less. *)
Definition items (ds : Dataset Z) : list (Batch Z) :=
  let ws := windows (args_seq_len (ds_args ds)) (rows (data_y ds)) in
  match ds_class ds with
  | Dataset_TABE_File => ws
  | Dataset_TABE_Online => take (length ws - 1) ws
  end.

(** The datasets always load, as arrays whose dtype holds every value used
    here unchanged.  The loader's constructor is torch's: it raises
    [ValueError] for a batch size of 0 and for shuffling an empty dataset.
    Loaders are only iterated with batch size 1: one batch per item. *)
#[global] Instance runtime : Runtime Z := {
  zero := 0;
  dataset_raises _ _ := None;
  dataset_data_y _ a := Ndarray2 2 (split_rows (args_flag a));
  dataset_astype _ _ x := x;
  dataset_scale _ _ := true;
  dataset_inverse_transform _ _ := rescale;
  loader_raises dl :=
    if (dl_batch_size dl =? 0)%nat || dl_shuffle dl && (length (items (dl_dataset dl)) =? 0)%nat
    then Some ValueError else None;
  loader_batches dl := items (dl_dataset dl);
  uninitialized a i := - (1000 * Z.of_nat a + Z.of_nat i) - 1
}.

(** A combiner with a running bias [c]: it predicts from the last input row
    and, when training, learns the residual of the revealed truth. *)
Definition last_input (bx : tensor3 Z) : Z :=
  match item_0_m1_m1 bx with
  | Ok x => x
  | Raise _ => 0
  end.

#[global] Instance combiner : Combiner Z Z := {
  combiner_train c := c + 1;
  combiner_proceed_onestep c bx by_ _ _ training :=
    let p := last_input bx + c in
    ((p, [p - 1; p + 1]),
     if default false training then last_input by_ - p else c);
  combiner_basemodels _ := 2%nat
}.

(** An adjuster that predicts before it looks at the truth. *)
#[global] Instance adjuster : Adjuster Z Z := {
  adjuster_train a y y_hat_cbm := ((fun p => p + a) <$> y_hat_cbm, a);
  adjuster_proceed_onestep a y p training := (p + a, if training then y - p else a)
}.

(** An adjuster that echoes the truth it is given, and whose batch training
    returns an empty series. *)
#[global] Instance echo_adjuster : Adjuster Z unit := {
  adjuster_train a y y_hat_cbm := ([], a);
  adjuster_proceed_onestep a y p training := (y, a)
}.

Definition demo_configs (inv : bool) : Configs :=
  MkConfigs "TABE_FILE" "timeF" 32 "d" "long_term_forecast" "./dataset/" "data.csv"
    2 0 1 "MS" "close" "Monthly" 0 inv.

Definition online_configs : Configs :=
  MkConfigs "TABE_ONLINE" "timeF" 32 "d" "long_term_forecast" "./dataset/" "data.csv"
    2 0 1 "MS" "close" "Monthly" 0 false.

Definition empty_provider : Provider Z := MkProvider ∅ ∅ 0.

Definition world0 {AS} (inv : bool) (a : option AS) : World Z Z AS :=
  MkWorld empty_provider 0 (TabeModel_init (demo_configs inv) 0 a).

Definition online_world0 : World Z Z Z :=
  MkWorld empty_provider 0 (TabeModel_init online_configs 0 None).

(** A configuration naming a dataset that is not registered, and one whose
    input window is as long as the test split. *)
Definition unknown_configs : Configs :=
  MkConfigs "custom" "timeF" 32 "d" "long_term_forecast" "./dataset/" "data.csv"
    2 0 1 "MS" "close" "Monthly" 0 false.

Definition long_window_configs : Configs :=
  MkConfigs "TABE_FILE" "timeF" 32 "d" "long_term_forecast" "./dataset/" "data.csv"
    5 0 1 "MS" "close" "Monthly" 0 false.

Definition long_window_world0 : World Z Z Z :=
  MkWorld empty_provider 0 (TabeModel_init long_window_configs 0 None).

(** A configuration whose batch size is 0, and one for the classification
    task. *)
Definition zero_batch_configs : Configs :=
  MkConfigs "TABE_FILE" "timeF" 0 "d" "long_term_forecast" "./dataset/" "data.csv"
    2 0 1 "MS" "close" "Monthly" 0 false.

Definition classification_configs : Configs :=
  MkConfigs "TABE_FILE" "timeF" 32 "d" "classification" "./dataset/" "data.csv"
    2 0 1 "MS" "close" "Monthly" 0 false.

Definition classification_world0 : World Z Z Z :=
  MkWorld empty_provider 0 (TabeModel_init classification_configs 0 None).

(** The window of [step_x] and [step_y], and buffers too short or too narrow
    for it. *)
Definition step_window : Batch Z := MkBatch [[[1; 10]; [2; 20]]] [[[3; 30]]] [[]] [[]].
Definition no_buffers : @TestBuffers Z := MkTestBuffers [] [] [] [].
Definition three_row_buffers : @TestBuffers Z :=
  MkTestBuffers [0] [0] [0] [[0]; [0]; [0]].

(** A world in which [train] has run. *)
Definition trained {AS} `{!Adjuster Z AS} (inv : bool) (a : option AS) : World Z Z AS :=
  (train (world0 inv a)).2.

(** A one-step window whose truth is 30, and the sentinel put in its place. *)
Definition step_x : tensor3 Z := [[[1; 10]; [2; 20]]].
Definition step_y : tensor3 Z := [[[3; 30]]].
Definition sentinel : Z := 999.

(** What [test] returns on the instance without an adjuster, on inverted
    data. *)
Definition tested_inverted : TestResult Z :=
  MkTestResult [91; 121; 151] [64; 118; 124] [64; 118; 124]
    [[61; 115; 121]; [67; 121; 127]]
    [-5001; -5002; -5003] [-6001; -6002; -6003] None [-7001; -7002; -7003].

(** What [test] returns with the adjuster, on data that is not inverted. *)
Definition tested_adjusted : TestResult Z :=
  MkTestResult [30; 40; 50] [26; 48; 42] [21; 39; 41]
    [[20; 38; 40]; [22; 40; 42]]
    [-5001; -5002; -5003] [-6001; -6002; -6003] None [-7001; -7002; -7003].

End Demo.

(** * Properties *)

(** A run returns or raises. *)
Lemma run_cases {A W} (x : result A * W) :
  (∃ a w, x = (Ok a, w)) ∨ (∃ e w, x = (Raise e, w)).
Proof. destruct x as [[a|e] w]; eauto. Qed.

(** ** Properties of [dataset_loader.py] *)

Section DatasetLoaderFacts.
Context {V : Type} `{!Runtime V}.

(** What [_data_provider] passes to the DataLoader, in all three task
    branches. *)
Lemma _data_provider_loader configs flag step_by_step id data_set data_loader :
  _data_provider configs flag step_by_step id = Ok (data_set, data_loader) ->
  dl_dataset data_loader = data_set
  ∧ dl_batch_size data_loader = (if step_by_step then 1 else batch_size configs)
  ∧ dl_shuffle data_loader =
      negb (bool_decide (flag = "test"%string) || bool_decide (flag = "TEST"%string)
            || step_by_step)
  ∧ dl_drop_last data_loader = false
  ∧ ds_id data_set = id ∧ dl_id data_loader = S id.
Proof.
  unfold _data_provider, Data_call, DataLoader_call.
  destruct (data_dict !! data configs) as [cls|]; simpl; [|discriminate].
  generalize (bool_decide (flag = "test"%string) || bool_decide (flag = "TEST"%string)
              || step_by_step).
  intros sh.
  destruct (bool_decide (task_name configs = "anomaly_detection"%string));
    [|destruct (bool_decide (task_name configs = "classification"%string))];
    (destruct (dataset_raises _ _); simpl; [discriminate|]);
    (destruct (loader_raises _); simpl; [discriminate|]);
    intros [= <- <-]; destruct sh, step_by_step; simpl; repeat split;
    by destruct (bool_decide (data configs = "m4"%string)).
Qed.

(** C5.  Whatever the configuration and the split, a loader built by
    [_data_provider] in step-by-step mode has batch size 1 and does not
    shuffle, whatever batch size was requested; and a loader built for the
    split ['test'] or ['TEST'] does not shuffle either, also when
    [step_by_step] is false. *)
Theorem data_provider_stepwise_and_test_loader
    configs flag step_by_step id data_set data_loader :
  _data_provider configs flag step_by_step id = Ok (data_set, data_loader) ->
  (step_by_step = true ->
     dl_batch_size data_loader = 1 ∧ dl_shuffle data_loader = false)
  ∧ (flag = "test"%string ∨ flag = "TEST"%string -> dl_shuffle data_loader = false).
Proof.
  intros Hbuilt.
  destruct (_data_provider_loader _ _ _ _ _ _ Hbuilt) as (_ & Hbs & Hsh & _).
  split.
  - intros ->. rewrite Hbs, Hsh. by rewrite !orb_true_r.
  - intros Hflag. rewrite Hsh.
    destruct Hflag as [-> | ->]; rewrite ?bool_decide_eq_true_2 by done;
      by rewrite ?orb_true_r.
Qed.

(** A request that returns leaves its key in both caches, bound to the pair
    it returned. *)
Lemma get_data_provider_cached configs flag step_by_step p data_set data_loader p' :
  get_data_provider configs flag step_by_step p = (Ok (data_set, data_loader), p') ->
  _cache_dataset p' !! cache_key flag step_by_step = Some data_set
  ∧ _cache_dataloader p' !! cache_key flag step_by_step = Some data_loader.
Proof.
  unfold get_data_provider.
  set (key := cache_key flag step_by_step).
  destruct (_cache_dataset p !! key) as [d|] eqn:Hd.
  - rewrite Hd. simpl.
    destruct (_cache_dataloader p !! key) as [l|] eqn:Hl; simpl; [|discriminate].
    by intros [= <- <- <-].
  - destruct (_data_provider configs flag step_by_step (next_id p)) as [[d l]|e];
      simpl; [|discriminate].
    rewrite !lookup_insert_eq. simpl. intros [= <- <- <-]. simpl.
    by rewrite !lookup_insert_eq.
Qed.

(** A request whose key is in both caches returns the cached pair and
    changes nothing; the configuration is not looked at. *)
Lemma get_data_provider_hit configs flag step_by_step p data_set data_loader :
  _cache_dataset p !! cache_key flag step_by_step = Some data_set ->
  _cache_dataloader p !! cache_key flag step_by_step = Some data_loader ->
  get_data_provider configs flag step_by_step p = (Ok (data_set, data_loader), p).
Proof.
  intros Hd Hl. unfold get_data_provider. by rewrite Hd, Hd, Hl.
Qed.

(** C4.  For every split flag and step mode: when a request returns a pair,
    the next request with the same flag and step mode returns that very pair
    (same objects, hence same identities) and leaves the caches as they are,
    also when it is made with another configuration [configs2]. *)
Theorem get_data_provider_same_key_same_pair
    configs1 configs2 flag step_by_step p data_set data_loader p1 :
  get_data_provider configs1 flag step_by_step p = (Ok (data_set, data_loader), p1) ->
  get_data_provider configs2 flag step_by_step p1 = (Ok (data_set, data_loader), p1).
Proof.
  intros Hfirst.
  destruct (get_data_provider_cached _ _ _ _ _ _ _ Hfirst) as [Hd Hl].
  by apply get_data_provider_hit.
Qed.

(** *** Further properties of the cache *)

Lemma data_dict_lookup (name : string) :
  data_dict !! name =
    if decide (name = "TABE_FILE"%string) then Some Dataset_TABE_File
    else if decide (name = "TABE_ONLINE"%string) then Some Dataset_TABE_Online
    else None.
Proof.
  unfold data_dict. rewrite lookup_insert, lookup_singleton.
  repeat case_decide; simplify_eq; done.
Qed.

(** Every path through [get_data_provider]. *)
Lemma get_data_provider_run configs flag step_by_step (p : Provider V) :
  get_data_provider configs flag step_by_step p =
    match _cache_dataset p !! cache_key flag step_by_step with
    | Some d =>
        (match _cache_dataloader p !! cache_key flag step_by_step with
         | Some l => Ok (d, l)
         | None => Raise KeyError
         end, p)
    | None =>
        match _data_provider configs flag step_by_step (next_id p) with
        | Ok (d, l) =>
            (Ok (d, l),
             MkProvider (<[cache_key flag step_by_step := d]> (_cache_dataset p))
                        (<[cache_key flag step_by_step := l]> (_cache_dataloader p))
                        (2 + next_id p))
        | Raise e => (Raise e, p)
        end
    end.
Proof.
  unfold get_data_provider.
  destruct (_cache_dataset p !! cache_key flag step_by_step) as [d|] eqn:Hd.
  - rewrite Hd. simpl. by destruct (_cache_dataloader p !! _).
  - destruct (_data_provider _ _ _ _) as [[d l]|e]; simpl; [|done].
    by rewrite !lookup_insert_eq.
Qed.

(** X1.  A dataset name that is not registered makes [_data_provider] raise
    [KeyError] at the lookup, whatever the constructors would do: none of
    them is called.  So [_data_provider] returns only for ['TABE_FILE'] and
    ['TABE_ONLINE']; in particular it never returns for ['m4'], and the [m4]
    special case of the forecast branch is never reached.  For a registered
    name it adds no exception of its own: what it raises, the constructor of
    the dataset class or the constructor of the loader raised. *)
Theorem data_provider_unregistered_name configs flag step_by_step id :
  (data configs ≠ "TABE_FILE"%string ∧ data configs ≠ "TABE_ONLINE"%string ->
     _data_provider (V := V) configs flag step_by_step id = Raise KeyError)
  ∧ (∀ pair, _data_provider (V := V) configs flag step_by_step id = Ok pair ->
       (data configs = "TABE_FILE"%string ∨ data configs = "TABE_ONLINE"%string)
       ∧ data configs ≠ "m4"%string)
  ∧ (∀ cls e, data_dict !! data configs = Some cls ->
       _data_provider (V := V) configs flag step_by_step id = Raise e ->
       (∃ a, dataset_raises cls a = Some e)
       ∨ (∃ l : DataLoader V, loader_raises l = Some e ∧ dl_id l = S id
                               ∧ ds_id (dl_dataset l) = id)).
Proof.
  split; [|split].
  - intros [H1 H2]. unfold _data_provider. rewrite data_dict_lookup.
    by rewrite !decide_False by done.
  - intros pair Hok. unfold _data_provider in Hok.
    rewrite data_dict_lookup in Hok.
    destruct (decide (data configs = "TABE_FILE"%string)) as [H1|H1];
      [rewrite H1; split; [by left | done]|].
    destruct (decide (data configs = "TABE_ONLINE"%string)) as [H2|H2];
      [rewrite H2; split; [by right | done]|].
    done.
  - intros cls e Hcls. unfold _data_provider, Data_call, DataLoader_call.
    rewrite Hcls. simpl.
    destruct (bool_decide (task_name configs = "anomaly_detection"%string));
      [|destruct (bool_decide (task_name configs = "classification"%string))].
    all: destruct (dataset_raises cls _) as [e1|] eqn:Hd; simpl;
      [intros [= <-]; left; eauto|].
    all: destruct (loader_raises _) as [e2|] eqn:Hl; simpl; [|done].
    all: intros [= <-]; right; eexists; split; [exact Hl | done].
Qed.

(** X2.  A request that raises, for whatever reason (an unregistered name,
    a dataset or loader constructor that raises), leaves both caches and
    the identity counter exactly as they were: nothing is cached for a
    request that failed, not even a dataset that was built before the
    loader's constructor raised.  When the key was not cached, the
    exception is the one [_data_provider] raised. *)
Theorem get_data_provider_failure_caches_nothing
    configs flag step_by_step (p : Provider V) e :
  (get_data_provider configs flag step_by_step p).1 = Raise e ->
  (get_data_provider configs flag step_by_step p).2 = p
  ∧ (_cache_dataset p !! cache_key flag step_by_step = None ->
     _data_provider configs flag step_by_step (next_id p) = Raise e).
Proof.
  rewrite get_data_provider_run.
  destruct (_cache_dataset p !! _) as [d|].
  - by destruct (_cache_dataloader p !! _).
  - destruct (_data_provider _ _ _ _) as [[d l]|e'] eqn:Hb; simpl; [done|].
    by intros [= <-].
Qed.

(** X3.  The caches only grow: whatever a request does, an entry that was
    cached under some key before it is cached under that key, unchanged,
    after it.  Nothing is evicted or overwritten. *)
Theorem get_data_provider_keeps_entries configs flag step_by_step (p : Provider V) key :
  (∀ d, _cache_dataset p !! key = Some d ->
        _cache_dataset (get_data_provider configs flag step_by_step p).2 !! key = Some d)
  ∧ (∀ l, _cache_dataloader p !! key = Some l ->
          is_Some (_cache_dataset p !! key) ->
          _cache_dataloader (get_data_provider configs flag step_by_step p).2 !! key
          = Some l).
Proof.
  rewrite get_data_provider_run.
  destruct (_cache_dataset p !! cache_key flag step_by_step) as [d0|] eqn:Hd0;
    [done|].
  destruct (_data_provider _ _ _ _) as [[d1 l1]|e]; simpl; [|done].
  split.
  - intros d Hd. rewrite lookup_insert_ne; [done|]. congruence.
  - intros l Hl [d Hd]. rewrite lookup_insert_ne; [done|]. congruence.
Qed.

(** X4.  The key of a step-by-step request for [flag] is the key of a plain
    request for [flag ++ '_stb']: once the latter has returned a pair, a
    step-by-step request for [flag] returns that same pair, whose loader was
    not built for step-by-step use. *)
Theorem get_data_provider_stepwise_key_collision
    configs1 configs2 flag (p : Provider V) data_set data_loader p1 :
  get_data_provider configs1 (flag +:+ "_stb") false p
    = (Ok (data_set, data_loader), p1) ->
  get_data_provider configs2 flag true p1 = (Ok (data_set, data_loader), p1).
Proof.
  intros [Hd Hl]%get_data_provider_cached.
  by apply get_data_provider_hit.
Qed.

(** In every reachable state of the caches: both dictionaries have the same
    keys, a cached loader iterates the dataset cached under its key, and
    identities are below the counter and not shared. *)
Lemma provider_reachable_inv (p : Provider V) :
  provider_reachable p ->
  (∀ k, is_Some (_cache_dataset p !! k) ↔ is_Some (_cache_dataloader p !! k))
  ∧ (∀ k d l, _cache_dataset p !! k = Some d -> _cache_dataloader p !! k = Some l ->
       dl_dataset l = d)
  ∧ (∀ k d, _cache_dataset p !! k = Some d -> ds_id d < next_id p)
  ∧ (∀ k l, _cache_dataloader p !! k = Some l -> dl_id l < next_id p)
  ∧ (∀ k1 k2 d1 d2, _cache_dataset p !! k1 = Some d1 ->
       _cache_dataset p !! k2 = Some d2 -> ds_id d1 = ds_id d2 -> k1 = k2)
  ∧ (∀ k1 k2 l1 l2, _cache_dataloader p !! k1 = Some l1 ->
       _cache_dataloader p !! k2 = Some l2 -> dl_id l1 = dl_id l2 -> k1 = k2)
  ∧ (∀ k1 k2 d l, _cache_dataset p !! k1 = Some d ->
       _cache_dataloader p !! k2 = Some l -> ds_id d ≠ dl_id l).
Proof.
  induction 1 as [n|configs flag step_by_step p _ IH].
  { simpl. repeat split; intros *; rewrite ?lookup_empty; try done.
    all: by intros [? ?]. }
  destruct IH as (Hdom & Hpair & Hds & Hdl & Hdd & Hll & Hdl').
  rewrite get_data_provider_run.
  destruct (_cache_dataset p !! cache_key flag step_by_step) as [d0|] eqn:Hd0.
  { simpl. repeat split; try done; apply Hdom. }
  destruct (_data_provider _ _ _ _) as [[d1 l1]|e] eqn:Hb; simpl.
  2:{ repeat split; try done; apply Hdom. }
  apply _data_provider_loader in Hb as (Hl1 & _ & _ & _ & Hid1 & Hid2).
  set (key := cache_key flag step_by_step) in *.
  assert (Hl0 : _cache_dataloader p !! key = None).
  { apply eq_None_not_Some. rewrite <- Hdom, Hd0. by intros [? ?]. }
  repeat split.
  - rewrite !lookup_insert_is_Some.
    intros [?|[? ?]]; [by left | right; split; [done | by apply Hdom]].
  - rewrite !lookup_insert_is_Some.
    intros [?|[? ?]]; [by left | right; split; [done | by apply Hdom]].
  - intros k d l. rewrite !lookup_insert_Some.
    intros [[? <-]|[? H1]] [[? <-]|[? H2]]; try done. by eapply Hpair.
  - intros k d. rewrite lookup_insert_Some. intros [[_ <-]|[_ Hk]]; [lia|].
    apply Hds in Hk. lia.
  - intros k l. rewrite lookup_insert_Some. intros [[_ <-]|[_ Hk]]; [lia|].
    apply Hdl in Hk. lia.
  - intros k1 k2 d d'. rewrite !lookup_insert_Some.
    intros [[<- <-]|[? H1]] [[<- <-]|[? H2]] Hid; try done.
    + apply Hds in H2. lia.
    + apply Hds in H1. lia.
    + by eapply Hdd.
  - intros k1 k2 l l'. rewrite !lookup_insert_Some.
    intros [[<- <-]|[? H1]] [[<- <-]|[? H2]] Hid; try done.
    + apply Hdl in H2. lia.
    + apply Hdl in H1. lia.
    + by eapply Hll.
  - intros k1 k2 d l. rewrite !lookup_insert_Some.
    intros [[<- <-]|[? H1]] [[<- <-]|[? H2]]; try lia.
    + apply Hdl in H2. lia.
    + apply Hds in H1. lia.
    + by eapply Hdl'.
Qed.

(** X5.  In every state of the caches a program reaches: a request whose
    key is cached returns the cached pair and changes nothing (neither
    lookup of the return statement fails); a request that returns returns a
    dataset and a loader over that very dataset; and a request that raises
    found its key missing and raises what [_data_provider] raised, leaving
    the caches as they were. *)
Theorem get_data_provider_outcomes configs flag step_by_step (p : Provider V) :
  provider_reachable p ->
  (is_Some (_cache_dataset p !! cache_key flag step_by_step) ->
     ∃ data_set data_loader,
       get_data_provider configs flag step_by_step p = (Ok (data_set, data_loader), p))
  ∧ (∀ data_set data_loader,
       (get_data_provider configs flag step_by_step p).1 = Ok (data_set, data_loader) ->
       dl_dataset data_loader = data_set)
  ∧ (∀ e, (get_data_provider configs flag step_by_step p).1 = Raise e ->
       _cache_dataset p !! cache_key flag step_by_step = None
       ∧ _data_provider configs flag step_by_step (next_id p) = Raise e
       ∧ (get_data_provider configs flag step_by_step p).2 = p).
Proof.
  intros Hreach.
  pose proof (provider_reachable_inv _ (provider_requested configs flag step_by_step p Hreach))
    as (_ & Hpair & _).
  destruct (provider_reachable_inv _ Hreach) as (Hdom & _).
  split; [|split].
  - intros [d Hd].
    assert (is_Some (_cache_dataloader p !! cache_key flag step_by_step)) as [l Hl].
    { apply Hdom. rewrite Hd. eauto. }
    exists d, l. by apply get_data_provider_hit.
  - intros d l Hrun.
    destruct (get_data_provider configs flag step_by_step p) as [r p'] eqn:Hget.
    simpl in Hrun. subst r.
    apply get_data_provider_cached in Hget as [Hd Hl]. simpl in Hpair. eauto.
  - intros e. rewrite get_data_provider_run.
    destruct (_cache_dataset p !! _) as [d0|] eqn:Hd0.
    + assert (is_Some (_cache_dataloader p !! cache_key flag step_by_step)) as [l Hl].
      { apply Hdom. rewrite Hd0. eauto. }
      rewrite Hl. done.
    + destruct (_data_provider _ _ _ _) as [[d l]|e'] eqn:Hb; simpl; [done|].
      by intros [= <-].
Qed.

(** X6.  In every state of the caches a program reaches, no object is shared:
    datasets cached under different keys have different identities, so have
    loaders, and no identity is both a dataset's and a loader's. *)
Theorem provider_objects_not_shared (p : Provider V) :
  provider_reachable p ->
  (∀ k1 k2 d1 d2, _cache_dataset p !! k1 = Some d1 ->
     _cache_dataset p !! k2 = Some d2 -> k1 ≠ k2 -> ds_id d1 ≠ ds_id d2)
  ∧ (∀ k1 k2 l1 l2, _cache_dataloader p !! k1 = Some l1 ->
       _cache_dataloader p !! k2 = Some l2 -> k1 ≠ k2 -> dl_id l1 ≠ dl_id l2)
  ∧ (∀ k1 k2 d l, _cache_dataset p !! k1 = Some d ->
       _cache_dataloader p !! k2 = Some l -> ds_id d ≠ dl_id l).
Proof.
  intros (_ & _ & _ & _ & Hdd & Hll & Hdl)%provider_reachable_inv.
  split; [|split].
  - intros k1 k2 d1 d2 H1 H2 Hne Hid. apply Hne. by eapply Hdd.
  - intros k1 k2 l1 l2 H1 H2 Hne Hid. apply Hne. by eapply Hll.
  - done.
Qed.

(** X7.  The loader's settings, in all three task branches: it shuffles
    exactly when the request is not step-by-step and the split is neither
    ['test'] nor ['TEST']; its batch size is [configs.batch_size] unless the
    request is step-by-step; and it never drops the last, incomplete
    batch. *)
Theorem data_provider_loader_settings
    configs flag step_by_step id data_set data_loader :
  _data_provider (V := V) configs flag step_by_step id = Ok (data_set, data_loader) ->
  (dl_shuffle data_loader = true
     ↔ step_by_step = false ∧ flag ≠ "test"%string ∧ flag ≠ "TEST"%string)
  ∧ (step_by_step = false -> dl_batch_size data_loader = batch_size configs)
  ∧ dl_drop_last data_loader = false
  ∧ dl_num_workers data_loader = num_workers configs
  ∧ dl_dataset data_loader = data_set.
Proof.
  intros Hb. destruct (_data_provider_loader _ _ _ _ _ _ Hb) as (Hds & Hbs & Hsh & Hdrop & _).
  split; [|split; [|split; [|split]]]; try done.
  - rewrite Hsh. destruct step_by_step; repeat case_bool_decide; simpl;
      rewrite ?orb_true_r; split; try done; by intros (? & ? & ?).
  - intros ->. by rewrite Hbs.
  - revert Hb. unfold _data_provider, Data_call, DataLoader_call.
    destruct (data_dict !! data configs); simpl; [|done].
    repeat case_bool_decide;
      (destruct (dataset_raises _ _); simpl; [done|]);
      (destruct (loader_raises _); simpl; [done|]); by intros [= <- <-].
Qed.

End DatasetLoaderFacts.

(** ** Properties of the array operations *)

Section ArrayFacts.
Context {V : Type}.
Implicit Types (x y : V) (l r : list V) (rs : list (list V)).

Lemma last_of_rows_mapM rs :
  last_of_rows rs = from_option IndexError (mapM last rs).
Proof.
  induction rs as [|r rs IH]; [done|].
  simpl. unfold mbind, option_bind. destruct (last r) as [x|]; simpl; [|done].
  rewrite IH. by destruct (mapM last rs).
Qed.

Lemma last_of_rows_Ok rs l :
  last_of_rows rs = Ok l ->
  length l = length rs ∧ ∀ i, l !! i = rs !! i ≫= last.
Proof.
  rewrite last_of_rows_mapM.
  destruct (mapM last rs) as [k|] eqn:Hk; simpl; [|done].
  intros [= ->]. apply mapM_Some_1 in Hk.
  split; [symmetry; by eapply Forall2_length|].
  intros i. rewrite Forall2_lookup in Hk. specialize (Hk i).
  destruct Hk as [r x Hrx|]; simpl; done.
Qed.

(** [a[k:, -1]] has one entry per row from row [k] on: entry [i] is the last
    feature of row [k + i]. *)
Lemma slice_last_col_Ok k (a : ndarray2 V) l :
  slice_last_col k a = Ok l ->
  ncols a ≠ 0
  ∧ length l = length (rows a) - k
  ∧ ∀ i, l !! i = rows a !! (k + i) ≫= last.
Proof.
  unfold slice_last_col. destruct (ncols a =? 0) eqn:Hn; [done|].
  intros [Hlen Hl]%last_of_rows_Ok.
  rewrite length_drop in Hlen. split; [by apply Nat.eqb_neq|]. split; [done|].
  intros i. by rewrite Hl, lookup_drop.
Qed.

(** A split of 100 rows and an input window of 10 give 90 truths. *)
Example slice_last_col_hundred_rows (a : ndarray2 V) l :
  length (rows a) = 100 -> slice_last_col 10 a = Ok l -> length l = 90.
Proof. intros Ha (_ & Hl & _)%slice_last_col_Ok. lia. Qed.

(** On an array with at least one column, whose rows all have [ncols]
    entries, [a[k:, -1]] does not raise. *)
Lemma slice_last_col_rectangular k (a : ndarray2 V) :
  ncols a ≠ 0 ->
  Forall (fun row => length row = ncols a) (rows a) ->
  ∃ l,
    slice_last_col k a = Ok l
    ∧ length l = length (rows a) - k
    ∧ (∀ i, i < length l ->
         ∃ row x, rows a !! (k + i) = Some row ∧ last row = Some x ∧ l !! i = Some x)
    ∧ (k < length (rows a) -> last l = last (rows a) ≫= last).
Proof.
  intros Hcols Hrect.
  assert (Hsome : is_Some (mapM last (drop k (rows a)))).
  { apply mapM_is_Some. apply Forall_drop.
    eapply Forall_impl; [exact Hrect|]. intros row Hrow. simpl.
    rewrite last_is_Some. intros ->. simpl in Hrow. congruence. }
  destruct Hsome as [l Hl].
  assert (Hrun : slice_last_col k a = Ok l).
  { unfold slice_last_col. rewrite (proj2 (Nat.eqb_neq _ _) Hcols).
    by rewrite last_of_rows_mapM, Hl. }
  exists l. split; [done|].
  destruct (slice_last_col_Ok _ _ _ Hrun) as (_ & Hlen & Hi).
  split; [done|]. split.
  - intros i Hlt. destruct (lookup_lt_is_Some_2 l i Hlt) as [x Hx].
    pose proof (Hi i) as Hix. rewrite Hx in Hix. symmetry in Hix.
    apply bind_Some in Hix as (row & Hrow & Hlast). eauto.
  - intros Hk. rewrite !last_lookup, Hi. f_equal. f_equal. lia.
Qed.

Lemma last_col_Ok (a : ndarray2 V) l :
  last_col a = Ok l -> mapM last (rows a) = Some l ∧ length l = length (rows a).
Proof.
  unfold last_col, slice_last_col. destruct (ncols a =? 0); [done|].
  rewrite drop_0, last_of_rows_mapM.
  destruct (mapM last (rows a)) as [k|] eqn:Hk; simpl; [|done].
  intros [= ->]. split; [done|]. symmetry. by eapply length_mapM.
Qed.

Lemma broadcast_to_same n l : length l = n -> broadcast_to n l = Ok l.
Proof. intros Hl. unfold broadcast_to. by rewrite (proj2 (Nat.eqb_eq _ _) Hl). Qed.

Lemma broadcast_to_length n l l' : broadcast_to n l = Ok l' -> length l' = n.
Proof.
  unfold broadcast_to. destruct (length l =? n) eqn:Hn.
  - intros [= <-]. by apply Nat.eqb_eq.
  - destruct l as [|x [|??]]; intros [= <-]. by rewrite length_replicate.
Qed.

Lemma setitem_Ok (astype : V -> V) l t x l' :
  setitem astype l t x = Ok l' -> t < length l ∧ l' = <[t := astype x]> l.
Proof.
  unfold setitem. destruct (t <? length l) eqn:Ht; [|done].
  intros [= <-]. split; [by apply Nat.ltb_lt | done].
Qed.

Lemma setitem_lt (astype : V -> V) l t x :
  t < length l -> setitem astype l t x = Ok (<[t := astype x]> l).
Proof. intros Ht. unfold setitem. by rewrite (proj2 (Nat.ltb_lt _ _) Ht). Qed.

Lemma assign_col_Ok n rs t l rs' :
  assign_col rs t l = Ok rs' ->
  Forall (fun r => length r = n) rs ->
  length rs' = length rs ∧ Forall (fun r => length r = n) rs'.
Proof.
  unfold assign_col. destruct (forallb _ rs); [|done].
  destruct (broadcast_to (length rs) l) as [col|] eqn:Hb; simpl; [|done].
  apply broadcast_to_length in Hb. intros [= <-] Hrs.
  split; [rewrite length_zip_with; lia|].
  clear l. revert col Hb. induction Hrs as [|r rs Hr Hrs IH]; intros [|c col] Hb;
    simplify_eq/=; constructor; [by rewrite length_insert | by apply IH].
Qed.

(** The entry [[0, -1, -1]] and its replacement. *)
Lemma item_0_m1_m1_Raise (t : tensor3 V) e : item_0_m1_m1 t = Raise e -> e = IndexError.
Proof.
  unfold item_0_m1_m1. destruct (t !! 0) as [steps|]; simpl; [|congruence].
  destruct (last steps) as [feats|]; simpl; [|congruence].
  destruct (last feats); simpl; congruence.
Qed.

Lemma with_item_0_m1_m1_length (t : tensor3 V) x : length (with_item_0_m1_m1 t x) = length t.
Proof.
  destruct t as [|steps rest]; [done|]. simpl. by destruct (last steps).
Qed.

Lemma last_insert_last {A} (r : list A) (x y : A) :
  last r = Some y -> last (<[pred (length r) := x]> r) = Some x.
Proof.
  intros Hr. rewrite last_lookup, length_insert.
  apply list_lookup_insert_eq. destruct r; [done|]. simpl. lia.
Qed.

Lemma with_item_0_m1_m1_Ok (t : tensor3 V) x y :
  item_0_m1_m1 t = Ok y -> item_0_m1_m1 (with_item_0_m1_m1 t x) = Ok x.
Proof.
  unfold item_0_m1_m1. destruct t as [|steps rest]; [done|]. simpl.
  destruct (last steps) as [feats|] eqn:Hs; simpl; [|done].
  destruct (last feats) as [y'|] eqn:Hf; simpl; [|done]. intros _.
  rewrite (last_insert_last _ (set_last feats x) feats Hs). simpl.
  unfold set_last. by rewrite (last_insert_last _ x y' Hf).
Qed.

Lemma with_item_0_m1_m1_Raise (t : tensor3 V) x e :
  item_0_m1_m1 t = Raise e -> with_item_0_m1_m1 t x = t.
Proof.
  unfold item_0_m1_m1. destruct t as [|steps rest]; [done|]. simpl.
  destruct (last steps) as [feats|] eqn:Hs; simpl; [|done].
  destruct (last feats) as [y'|] eqn:Hf; simpl; [done|]. intros _.
  apply last_None in Hf as ->. unfold set_last. simpl.
  rewrite last_lookup in Hs. by rewrite list_insert_id.
Qed.

End ArrayFacts.

(** ** Properties of [tabe.py] *)

Section TabeFacts.
Context {V CS AS : Type} `{!Runtime V, !Combiner V CS, !Adjuster V AS}.

Abbreviation world := (World V CS AS).
Abbreviation model := (TabeModel V CS AS).

(** Unfolding of the monad's operations. *)
Ltac unfold_monad :=
  unfold np_concatenate1, py_assert, get_self, modify_self in *;
  unfold mbind, mret, M_mbind, M_ret, result_mbind, result_ret, bind, ret, raise,
    lift, from_option in *.

(** One step through a run: case analysis on the next scrutinee. *)
Ltac step_run :=
  match goal with
  | H : context [match ?x with _ => _ end] |- _ => destruct x eqn:?
  | |- context [match ?x with _ => _ end] => destruct x eqn:?
  end; simplify_eq/=.
Ltac run := simpl in *; repeat step_run.

(** ** [proceed_onestep] *)

(** A call that returns: what it read, what it returns and the state it
    leaves. *)
Lemma proceed_onestep_Ok bx by_ bxm bym training (w : world) r w' :
  proceed_onestep bx by_ bxm bym training w = (Ok r, w') ->
  length bx = 1 ∧ length by_ = 1 ∧
  ∃ y p bsm c' q am' hy ht hc,
    item_0_m1_m1 by_ = Ok y
    ∧ combiner_proceed_onestep (combiner_model (self w)) bx by_ bxm bym (Some training)
        = ((p, bsm), c')
    ∧ match adjuster_model (self w) with
      | None => q = p ∧ am' = None
      | Some a => ∃ a', adjuster_proceed_onestep a y p training = (q, a') ∧ am' = Some a'
      end
    ∧ y_hat (self w) = Some hy ∧ truths (self w) = Some ht ∧ y_hat_cbm (self w) = Some hc
    ∧ r = (q, q, p, bsm)
    ∧ w' = MkWorld (provider w) (allocations w)
             (MkTabeModel (configs (self w)) c' am'
                (Some (hy ++ [q])) (Some (ht ++ [y])) (Some (hc ++ [p]))).
Proof.
  unfold proceed_onestep, call_combiner_proceed_onestep, call_adjuster_proceed_onestep.
  unfold_monad.
  destruct (decide (length bx = 1)) as [Hx|Hx]; [|by rewrite (bool_decide_eq_false_2 _ Hx)].
  destruct (decide (length by_ = 1)) as [Hy|Hy];
    [|by rewrite (bool_decide_eq_false_2 _ Hy), andb_false_r].
  rewrite (bool_decide_eq_true_2 _ Hx), (bool_decide_eq_true_2 _ Hy).
  intros Hrun. split; [done|]. split; [done|].
  destruct w as [pr al s]. run; eauto 20.
Qed.

(** A call that raises leaves the histories as they were, provided they
    were in step: all three missing, or all three present. *)
Lemma proceed_onestep_Raise bx by_ bxm bym training (w : world) e w' :
  proceed_onestep bx by_ bxm bym training w = (Raise e, w') ->
  (y_hat_cbm (self w) = None ∨
   (is_Some (y_hat (self w)) ∧ is_Some (truths (self w)))) ->
  y_hat (self w') = y_hat (self w)
  ∧ truths (self w') = truths (self w)
  ∧ y_hat_cbm (self w') = y_hat_cbm (self w)
  ∧ provider w' = provider w ∧ allocations w' = allocations w.
Proof.
  unfold proceed_onestep, call_combiner_proceed_onestep, call_adjuster_proceed_onestep.
  unfold_monad. intros Hrun Hinv.
  destruct w as [pr al s]. simpl in Hinv.
  assert (Hsome : ∀ A (o : option A), is_Some o -> o ≠ None) by (by intros A o [x ->]).
  destruct Hinv as [Hc | [Hy%Hsome Ht%Hsome]]; run; done.
Qed.

(** C8.  [proceed_onestep] raises [AssertionError] exactly when the batch
    dimension of the input window or of the target window is not 1; and then
    nothing has been processed: the combiner and the adjuster were not
    called and no history was touched, the state is the one of the call. *)
Theorem proceed_onestep_assertion
    (bx by_ bxm bym : tensor3 V) (training : bool) (w : world) :
  ((proceed_onestep bx by_ bxm bym training w).1 = Raise AssertionError
     ↔ ¬ (length bx = 1 ∧ length by_ = 1))
  ∧ (¬ (length bx = 1 ∧ length by_ = 1) ->
       (proceed_onestep bx by_ bxm bym training w).2 = w).
Proof.
  unfold proceed_onestep, call_combiner_proceed_onestep, call_adjuster_proceed_onestep.
  unfold_monad.
  destruct (decide (length bx = 1)) as [Hx|Hx], (decide (length by_ = 1)) as [Hy|Hy];
    rewrite ?(bool_decide_eq_true_2 _ Hx), ?(bool_decide_eq_false_2 _ Hx),
            ?(bool_decide_eq_true_2 _ Hy), ?(bool_decide_eq_false_2 _ Hy); simpl.
  2-4: split; [split; [tauto | done] | done].
  split; [|tauto].
  split; [|tauto]. intros Hres. exfalso.
  destruct w as [pr al s]. run.
  match goal with
  | H : item_0_m1_m1 _ = Raise _ |- _ => by apply item_0_m1_m1_Raise in H
  end.
Qed.

(** C1 (amended).  The orchestrator adds no dependence on the truth of its
    own: when the combiner's returned predictions do not depend on the truth
    entry [[0, -1, -1]] of the target window it is handed, and the adjuster's
    returned prediction does not depend on the truth it is handed, two calls
    from the same state on windows that differ only in that entry return the
    same result (the same four predictions, or the same exception). *)
Theorem proceed_onestep_truth_blind_collaborators :
  (∀ c bx by_ bxm bym training v,
     (combiner_proceed_onestep c bx (with_item_0_m1_m1 by_ v) bxm bym training).1
     = (combiner_proceed_onestep c bx by_ bxm bym training).1) ->
  (∀ a y y' p training,
     (adjuster_proceed_onestep a y' p training).1
     = (adjuster_proceed_onestep a y p training).1) ->
  ∀ bx by_ bxm bym training v (w : world),
    (proceed_onestep bx (with_item_0_m1_m1 by_ v) bxm bym training w).1
    = (proceed_onestep bx by_ bxm bym training w).1.
Proof.
  intros Hc Ha bx by_ bxm bym training v w.
  unfold proceed_onestep, call_combiner_proceed_onestep, call_adjuster_proceed_onestep.
  unfold_monad. rewrite with_item_0_m1_m1_length.
  destruct (bool_decide (length bx = 1) && bool_decide (length by_ = 1)); [|done].
  destruct (item_0_m1_m1 by_) as [y|e] eqn:Hy.
  - rewrite (with_item_0_m1_m1_Ok _ v _ Hy).
    specialize (Hc (combiner_model (self w)) bx by_ bxm bym (Some training) v).
    destruct (combiner_proceed_onestep _ bx (with_item_0_m1_m1 by_ v) _ _ _)
      as [[p1 b1] c1].
    destruct (combiner_proceed_onestep _ bx by_ _ _ _) as [[p2 b2] c2].
    simpl in Hc. injection Hc as -> ->.
    destruct w as [pr al [cf cm [a|] [yh|] [tr|] [yc|]]]; simpl; try done;
      specialize (Ha a y v p2 training);
      destruct (adjuster_proceed_onestep a v p2 training) as [q1 a1];
      destruct (adjuster_proceed_onestep a y p2 training) as [q2 a2];
      simpl in Ha; by subst q2.
  - by rewrite (with_item_0_m1_m1_Raise _ v _ Hy), Hy.
Qed.

(** ** Iterating a loader *)

Lemma loader_iterate_Ok (l : DataLoader V) bs :
  loader_iterate l = Ok bs -> bs = loader_batches l.
Proof.
  unfold loader_iterate.
  destruct (dl_collate_max_len l), (loader_batches l); by intros [= <-].
Qed.

Lemma loader_iterate_Raise (l : DataLoader V) e :
  loader_iterate l = Raise e ->
  e = NameError ∧ is_Some (dl_collate_max_len l) ∧ loader_batches l ≠ [].
Proof.
  unfold loader_iterate.
  destruct (dl_collate_max_len l), (loader_batches l); intros [= <-]; eauto.
Qed.

Lemma loader_iterate_default (l : DataLoader V) :
  dl_collate_max_len l = None ∨ loader_batches l = [] ->
  loader_iterate l = Ok (loader_batches l).
Proof.
  unfold loader_iterate. intros [-> | ->]; [done|].
  by destruct (dl_collate_max_len l).
Qed.

(** ** [train] *)

(** The collection loop returns when the buffer has room for every step; it
    only moves the combiner's state. *)
Lemma train_loop_run astype bs : ∀ t arr (w : world),
  t + length bs ≤ length arr ->
  ∃ arr' c',
    train_loop astype t bs arr w
    = (Ok arr', MkWorld (provider w) (allocations w) (set_combiner_model c' (self w)))
    ∧ length arr' = length arr.
Proof.
  induction bs as [|b bs IH]; intros t arr w Hlen; simpl in *.
  - exists arr, (combiner_model (self w)). split; [|done].
    unfold_monad. by destruct w as [pr al []].
  - unfold call_combiner_proceed_onestep. unfold_monad.
    destruct (combiner_proceed_onestep _ _ _ _ _ _) as [[p bsm] c1].
    rewrite setitem_lt by lia.
    edestruct (IH (S t) (<[t := astype p]> arr)) as (arr' & c' & -> & Hlen');
      [rewrite length_insert; lia|].
    exists arr', c'. rewrite length_insert in Hlen'. split; [|done].
    by destruct w as [pr al []].
Qed.

(** Every path through [train]. *)
Lemma train_run (w : world) :
  let s := self w in
  let s1 := set_combiner_model (combiner_train (combiner_model s)) s in
  match get_data_provider (configs s) "ensemble_train" true (provider w) with
  | (Raise e, p') => train w = (Raise e, MkWorld p' (allocations w) s1)
  | (Ok (train_dataset, train_loader), p') =>
      match slice_last_col (seq_len (configs s)) (data_y train_dataset) with
      | Raise e => train w = (Raise e, MkWorld p' (allocations w) s1)
      | Ok y =>
          if decide (length y = length (loader_batches train_loader)) then
            match loader_iterate train_loader with
            | Raise e => train w = (Raise e, MkWorld p' (S (allocations w)) s1)
            | Ok _ =>
                ∃ hc c', length hc = length y ∧
                  train w = (Ok tt, MkWorld p' (S (allocations w))
                    match adjuster_model s with
                    | None => MkTabeModel (configs s) c' None (Some hc) (Some y) (Some hc)
                    | Some a =>
                        MkTabeModel (configs s) c' (Some (adjuster_train a y hc).2)
                          (Some (adjuster_train a y hc).1) (Some y) (Some hc)
                    end)
            end
          else train w = (Raise AssertionError, MkWorld p' (allocations w) s1)
      end
  end.
Proof.
  destruct w as [pr al [cf cm am yh tr yc]]. simpl.
  unfold train, call_combiner_train, call_get_data_provider, np_empty_like,
    call_adjuster_train.
  unfold_monad. simpl.
  destruct (get_data_provider cf "ensemble_train" true pr) as [[[ds dl]|e] p']; [|done].
  destruct (slice_last_col (seq_len cf) (data_y ds)) as [y|e]; [|done].
  case_decide as Hlen.
  - rewrite bool_decide_eq_true_2 by done.
    destruct (loader_iterate dl) as [bs|e] eqn:Hbs; [|done].
    apply loader_iterate_Ok in Hbs as ->.
    match goal with
    | |- context [train_loop ?f 0 ?bs ?arr ?w1] =>
        destruct (train_loop_run f bs 0 arr w1) as (hc & c' & -> & Hhc);
          [rewrite length_fmap, length_seq; lia|]
    end.
    exists hc, c'. rewrite length_fmap, length_seq in Hhc.
    split; [done|]. simpl. destruct am as [a|]; simpl; [|done].
    by destruct (adjuster_train a y hc).
  - by rewrite bool_decide_eq_false_2 by done.
Qed.

(** C7.  Once [train] has the dataset, the loader and the truths [y], it
    raises [AssertionError] exactly when [len(y)] differs from the number of
    loader steps.  On a mismatch the run is aborted before anything is
    collected: no buffer is allocated, the combiner is not stepped and no
    history is stored.  When the two lengths agree the assertion cannot
    fail, and the run goes on to the collection: over a loader that collates
    by default (or has no batch) [train] returns, with one combiner
    prediction per truth; over a loader built by the classification branch
    that has a batch to fetch, it raises the [NameError] of the undefined
    [collate_fn] once the buffer is allocated, and stores nothing. *)
Theorem train_length_assertion (w : world) train_dataset train_loader p' y :
  get_data_provider (configs (self w)) "ensemble_train" true (provider w)
    = (Ok (train_dataset, train_loader), p') ->
  slice_last_col (seq_len (configs (self w))) (data_y train_dataset) = Ok y ->
  ((train w).1 = Raise AssertionError
     ↔ length y ≠ length (loader_batches train_loader))
  ∧ (length y ≠ length (loader_batches train_loader) ->
       (train w).2 = MkWorld p' (allocations w)
         (set_combiner_model (combiner_train (combiner_model (self w))) (self w)))
  ∧ (length y = length (loader_batches train_loader) ->
       (train w).1 ≠ Raise AssertionError
       ∧ (dl_collate_max_len train_loader = None ∨ loader_batches train_loader = [] ->
            (train w).1 = Ok tt
            ∧ truths (self (train w).2) = Some y
            ∧ ∃ hc, y_hat_cbm (self (train w).2) = Some hc ∧ length hc = length y)
       ∧ (is_Some (dl_collate_max_len train_loader) ∧ loader_batches train_loader ≠ [] ->
            (train w).1 = Raise NameError
            ∧ (train w).2 = MkWorld p' (S (allocations w))
                (set_combiner_model (combiner_train (combiner_model (self w))) (self w)))).
Proof.
  intros Hget Hy. pose proof (train_run w) as Hrun. simpl in Hrun.
  rewrite Hget, Hy in Hrun. case_decide as Hlen.
  - destruct (loader_iterate train_loader) as [bs|e] eqn:Hbs.
    + destruct Hrun as (hc & c' & Hhc & ->). simpl.
      split; [split; [done | by intros []]|]. split; [by intros []|]. intros _.
      split; [done|]. split.
      * intros _. split; [done|]. destruct (adjuster_model (self w)); simpl; eauto.
      * intros [[n Hn] Hne]. unfold loader_iterate in Hbs. rewrite Hn in Hbs.
        by destruct (loader_batches train_loader).
    + rewrite Hrun. simpl. apply loader_iterate_Raise in Hbs as (-> & [n Hn] & Hne).
      split; [split; [done | by intros []]|]. split; [by intros []|]. intros _.
      split; [done|]. split; [|done].
      intros [Hnone | Hnil]; [by rewrite Hn in Hnone | done].
  - rewrite Hrun. simpl. split; [done|]. split; [done|]. by intros.
Qed.

(** ** [test] *)

(** [proceed_onestep] touches neither the caches, nor the allocation count,
    nor the configuration, however it ends. *)
Lemma proceed_onestep_frame bx by_ bxm bym training (w : world) :
  let w' := (proceed_onestep bx by_ bxm bym training w).2 in
  provider w' = provider w ∧ allocations w' = allocations w
  ∧ configs (self w') = configs (self w).
Proof.
  unfold proceed_onestep, call_combiner_proceed_onestep, call_adjuster_proceed_onestep.
  unfold_monad. destruct w as [pr al s]. run; done.
Qed.

Lemma proceed_onestep_in_step bx by_ bxm bym training (w : world) :
  histories_in_step (self w) ->
  histories_in_step (self (proceed_onestep bx by_ bxm bym training w).2)
  ∧ (is_Some (y_hat (self w)) ->
     is_Some (y_hat (self (proceed_onestep bx by_ bxm bym training w).2))).
Proof.
  intros Hinv.
  destruct (proceed_onestep bx by_ bxm bym training w) as [[r|e] w'] eqn:Hrun; simpl.
  - apply proceed_onestep_Ok in Hrun
      as (_ & _ & y & p & bsm & c' & q & am' & hy & ht & hc & _ & _ & _ & Hy & Ht & Hc & _ & ->).
    unfold histories_in_step in *. rewrite Hy, Ht, Hc in Hinv. simpl.
    rewrite !length_app. simpl. split; [lia | eauto].
  - apply proceed_onestep_Raise in Hrun as (Hy & Ht & Hc & _).
    + unfold histories_in_step in *. by rewrite Hy, Ht, Hc.
    + unfold histories_in_step in Hinv.
      destruct (y_hat (self w)), (truths (self w)), (y_hat_cbm (self w));
        try done; eauto.
Qed.

Lemma test_loop_frame astype bs : ∀ t b (w : world),
  let w' := (test_loop astype t bs b w).2 in
  provider w' = provider w ∧ allocations w' = allocations w
  ∧ configs (self w') = configs (self w).
Proof.
  induction bs as [|x bs IH]; intros t b w; simpl; [done|].
  unfold_monad.
  pose proof (proceed_onestep_frame (batch_x x) (batch_y x) (batch_x_mark x)
                (batch_y_mark x) true w) as Hf. simpl in Hf.
  destruct (proceed_onestep _ _ _ _ true w) as [[[[[q1 q2] p] bsm]|e] w1]; simpl in *; [|done].
  repeat (match goal with
          | |- context [match ?r with Ok _ => _ | Raise _ => _ end] => destruct r; simpl
          end; [|done]).
  destruct Hf as (<- & <- & <-). apply IH.
Qed.

Lemma test_loop_in_step astype bs : ∀ t b (w : world),
  histories_in_step (self w) ->
  histories_in_step (self (test_loop astype t bs b w).2)
  ∧ (is_Some (y_hat (self w)) -> is_Some (y_hat (self (test_loop astype t bs b w).2))).
Proof.
  induction bs as [|x bs IH]; intros t b w Hinv; simpl; [done|].
  unfold_monad.
  destruct (proceed_onestep_in_step (batch_x x) (batch_y x) (batch_x_mark x)
              (batch_y_mark x) true w Hinv) as [Hf Hs].
  destruct (proceed_onestep _ _ _ _ true w) as [[[[[q1 q2] p] bsm]|e] w1]; simpl in *; [|done].
  destruct (setitem astype (b_tabe_pred b) t q1) as [l1|]; simpl; [|done].
  destruct (setitem astype (b_y_hat_adj b) t q2) as [l2|]; simpl; [|done].
  destruct (setitem astype (b_y_hat_cbm b) t p) as [l3|]; simpl; [|done].
  destruct (assign_col (b_y_hat_bsm b) t bsm) as [m|]; simpl; [|done].
  destruct (IH (S t) (MkTestBuffers l1 l2 l3 m) w1 Hf) as [IH1 IH2]. split; [done|].
  intros Hy. by apply IH2, Hs.
Qed.

(** One iteration of the loop of [test] that goes through. *)
Lemma test_loop_cons astype t x bs b (w : world) b' w' :
  test_loop astype t (x :: bs) b w = (Ok b', w') ->
  ∃ q1 q2 p bsm w1 m,
    proceed_onestep (batch_x x) (batch_y x) (batch_x_mark x) (batch_y_mark x) true w
      = (Ok (q1, q2, p, bsm), w1)
    ∧ t < length (b_tabe_pred b) ∧ t < length (b_y_hat_adj b)
    ∧ t < length (b_y_hat_cbm b)
    ∧ assign_col (b_y_hat_bsm b) t bsm = Ok m
    ∧ test_loop astype (S t) bs
        (MkTestBuffers (<[t := astype q1]> (b_tabe_pred b))
           (<[t := astype q2]> (b_y_hat_adj b))
           (<[t := astype p]> (b_y_hat_cbm b)) m) w1 = (Ok b', w').
Proof.
  simpl. unfold_monad.
  destruct (proceed_onestep _ _ _ _ true w) as [[[[[q1 q2] p] bsm]|e] w1]; [|done].
  destruct (setitem astype (b_tabe_pred b) t q1) as [l1|] eqn:H1; [|done].
  destruct (setitem astype (b_y_hat_adj b) t q2) as [l2|] eqn:H2; [|done].
  destruct (setitem astype (b_y_hat_cbm b) t p) as [l3|] eqn:H3; [|done].
  destruct (assign_col (b_y_hat_bsm b) t bsm) as [m|] eqn:H4; [|done].
  apply setitem_Ok in H1 as [? ->], H2 as [? ->], H3 as [? ->].
  intros Hrest. exists q1, q2, p, bsm, w1, m. eauto 10.
Qed.

(** The loop keeps the shape of its buffers. *)
Lemma test_loop_shape astype n bs : ∀ t b (w : world) b' w',
  test_loop astype t bs b w = (Ok b', w') ->
  Forall (fun r => length r = n) (b_y_hat_bsm b) ->
  length (b_tabe_pred b') = length (b_tabe_pred b)
  ∧ length (b_y_hat_cbm b') = length (b_y_hat_cbm b)
  ∧ Forall (fun r => length r = n) (b_y_hat_bsm b').
Proof.
  induction bs as [|x bs IH]; intros t b w b' w' Hrun Hrows.
  - simpl in Hrun. unfold_monad. by simplify_eq.
  - apply test_loop_cons in Hrun
      as (q1 & q2 & p & bsm & w1 & m & _ & _ & _ & _ & Hm & Hrest).
    apply (assign_col_Ok n) in Hm as [_ Hm]; [|done].
    apply IH in Hrest as (Ht & Hc & Hb); [|done]. simpl in *.
    by rewrite length_insert in Ht, Hc.
Qed.

(** Without an adjuster the loop writes the same value into [tabe_pred] and
    [y_hat_cbm] at every step, and extends the two stored histories by the
    same values. *)
Lemma test_loop_no_adjuster astype bs : ∀ t b (w : world) b' w',
  test_loop astype t bs b w = (Ok b', w') ->
  adjuster_model (self w) = None ->
  adjuster_model (self w') = None
  ∧ (y_hat (self w) = y_hat_cbm (self w) -> y_hat (self w') = y_hat_cbm (self w'))
  ∧ (∀ i, t ≤ i < t + length bs -> b_tabe_pred b' !! i = b_y_hat_cbm b' !! i)
  ∧ (∀ i, i < t -> b_tabe_pred b' !! i = b_tabe_pred b !! i
                   ∧ b_y_hat_cbm b' !! i = b_y_hat_cbm b !! i).
Proof.
  induction bs as [|x bs IH]; intros t b w b' w' Hrun Hadj.
  - simpl in Hrun. unfold_monad. simplify_eq. simpl.
    split; [done|]. split; [done|]. split; [intros; lia | done].
  - apply test_loop_cons in Hrun
      as (q1 & q2 & p & bsm & w1 & m & Hstep & Ht & _ & Hc & _ & Hrest).
    apply proceed_onestep_Ok in Hstep
      as (_ & _ & y & p' & bsm' & c' & q & am' & hy & ht & hc & _ & _ & Ha
          & Hhy & Hht & Hhc & Hr & ->).
    rewrite Hadj in Ha. destruct Ha as [-> ->]. simplify_eq.
    apply IH in Hrest as (Hadj' & Hhist & Hnew & Hold); [|done]. simpl in *.
    split; [done|]. split.
    { intros Heq. apply Hhist. rewrite Hhy, Hhc in Heq. by simplify_eq. }
    split.
    + intros i Hi. destruct (decide (i = t)) as [->|Hne].
      * destruct (Hold t) as [-> ->]; [lia|].
        by rewrite !list_lookup_insert_eq.
      * apply Hnew. lia.
    + intros i Hi. destruct (Hold i) as [-> ->]; [lia|].
      by rewrite !list_lookup_insert_ne by lia.
Qed.

(** What [test] has when its loop ends. *)
Lemma test_collect_Ok (w : world) c w' :
  test_collect w = (Ok c, w') ->
  ∃ p' b0,
    get_data_provider (configs (self w)) "test" true (provider w)
      = (Ok (c_test_set c, c_test_loader c), p')
    ∧ slice_last_col (seq_len (configs (self w))) (data_y (c_test_set c)) = Ok (c_y c)
    ∧ c_y_hat_q_low c = uninitialized (4 + allocations w) <$> seq 0 (length (c_y c))
    ∧ c_y_hat_q_high c = uninitialized (5 + allocations w) <$> seq 0 (length (c_y c))
    ∧ c_devi_stddev c = uninitialized (6 + allocations w) <$> seq 0 (length (c_y c))
    ∧ length (b_tabe_pred b0) = length (c_y c)
    ∧ length (b_y_hat_cbm b0) = length (c_y c)
    ∧ Forall (fun r => length r = length (c_y c)) (b_y_hat_bsm b0)
    ∧ test_loop (data_y_astype (c_test_set c)) 0 (loader_batches (c_test_loader c)) b0
        (MkWorld p' (7 + allocations w) (self w)) = (Ok (c_buffers c), w').
Proof.
  unfold test_collect, call_get_data_provider, np_empty_like, np_empty2.
  unfold_monad. destruct w as [pr al s]. simpl.
  destruct (get_data_provider (configs s) "test" true pr)
    as [[[ds dl]|e] p'] eqn:Hget; [|done].
  destruct (slice_last_col (seq_len (configs s)) (data_y ds)) as [y|e] eqn:Hy; [|done].
  simpl.
  destruct (loader_iterate dl) as [bs|e] eqn:Hbs; [|done].
  apply loader_iterate_Ok in Hbs as ->.
  match goal with
  | |- context [test_loop ?f 0 ?bs ?b0 ?w0] =>
      destruct (test_loop f 0 bs b0 w0) as [[b'|e] w''] eqn:Hloop; [|done];
      intros [= <- <-]; exists p', b0
  end.
  simpl. repeat split; try done; rewrite ?length_fmap, ?length_seq; try done.
  apply Forall_fmap, Forall_forall. intros i _. simpl.
  by rewrite length_fmap, length_seq.
Qed.

(** What [test] returns, from what it collected. *)
Lemma test_Ok (w : world) r w' :
  test w = (Ok r, w') ->
  ∃ c,
    test_collect w = (Ok c, w')
    ∧ r_y_hat_q_low r = c_y_hat_q_low c
    ∧ r_y_hat_q_high r = c_y_hat_q_high c
    ∧ r_devi_stddev r = c_devi_stddev c
    ∧ r_buy_threshold_q r = None
    ∧ if scale (c_test_set c) && inverse (configs (self w))
      then invert_outputs (c_test_set c) (c_y c) (b_tabe_pred (c_buffers c))
             (b_y_hat_cbm (c_buffers c)) (b_y_hat_bsm (c_buffers c))
           = Ok (r_y r, r_tabe_pred r, r_y_hat_cbm r, r_y_hat_bsm r)
      else r_y r = c_y c
           ∧ r_tabe_pred r = b_tabe_pred (c_buffers c)
           ∧ r_y_hat_cbm r = b_y_hat_cbm (c_buffers c)
           ∧ r_y_hat_bsm r = b_y_hat_bsm (c_buffers c).
Proof.
  unfold test. unfold_monad.
  destruct (test_collect w) as [[c|e] w1]; [|done].
  destruct (scale (c_test_set c) && inverse (configs (self w))) eqn:Hneed.
  - destruct (invert_outputs _ _ _ _ _) as [[[[y tp] cbm] bsm]|e] eqn:Hinv; [|done].
    intros [= <- <-]. exists c. by rewrite Hneed.
  - intros [= <- <-]. exists c. by rewrite Hneed.
Qed.

(** ** The inverse transformation of the outputs *)

(** Writing a series of [n] entries into the last column of [np.zeros((n, f))]
    is the embedding of the specification. *)
Lemma assign_last_col_zeros n f (l : list V) :
  length l = n -> f ≠ 0 ->
  assign_last_col (np_zeros zero n f) l = Ok (embed_in_target_column f l).
Proof.
  intros Hl Hf. unfold assign_last_col, np_zeros, embed_in_target_column. simpl.
  rewrite (proj2 (Nat.eqb_neq _ _) Hf), length_replicate, broadcast_to_same by done.
  simpl. f_equal. f_equal.
  rewrite zip_with_replicate_l by lia. apply list_fmap_ext. intros _ x _.
  unfold set_last. rewrite length_replicate, insert_replicate_lt by lia.
  by replace (f - S (pred f)) with 0 by lia.
Qed.

Lemma assign_last_col_zeros_Ok n f (l : list V) a :
  length l = n ->
  assign_last_col (np_zeros zero n f) l = Ok a ->
  f ≠ 0 ∧ a = embed_in_target_column f l.
Proof.
  intros Hl Ha. destruct (decide (f = 0)) as [->|Hf]; [done|].
  rewrite assign_last_col_zeros in Ha by done. by simplify_eq.
Qed.

Lemma embed_in_target_column_rows f (l : list V) :
  length (rows (embed_in_target_column f l)) = length l.
Proof. unfold embed_in_target_column. simpl. by rewrite length_fmap. Qed.

(** One series through lines 131-148: embedded, transformed, extracted. *)
Lemma invert_series_Ok (ds : Dataset V) n (l : list V) a out :
  length l = n ->
  assign_last_col (np_zeros zero n (ncols (data_y ds))) l = Ok a ->
  last_col (inverse_transform ds a) = Ok out ->
  reconstruct_transform_extract ds l = Some out
  ∧ length out = length (rows (inverse_transform ds a))
  ∧ a = embed_in_target_column (ncols (data_y ds)) l.
Proof.
  intros Hl [Hf ->]%assign_last_col_zeros_Ok [Hout Hlen]%last_col_Ok; [|done].
  unfold reconstruct_transform_extract, extract_target_column. by rewrite Hout.
Qed.

(** The [for] loop over the base models' rows: the rows before index
    [length done] are converted, those from it on are still to convert. *)
Lemma invert_bsm_loop_Ok (ds : Dataset V) n todo : ∀ done m',
  (∀ a, length (rows (inverse_transform ds a)) = length (rows a)) ->
  Forall (fun r => length r = n) todo ->
  invert_bsm_loop ds n (ncols (data_y ds)) (seq (length done) (length todo))
    (done ++ todo) = Ok m' ->
  ∃ todo', m' = done ++ todo'
    ∧ Forall2 (fun raw out => reconstruct_transform_extract ds raw = Some out) todo todo'.
Proof.
  induction todo as [|r todo IH]; intros done m' Hrows Hlen Hrun; simpl in Hrun.
  - simplify_eq. exists []. by split.
  - apply Forall_cons in Hlen as [Hr Hlen]. unfold_monad.
    rewrite lookup_app_r, Nat.sub_diag in Hrun by done. simpl in Hrun.
    destruct (assign_last_col _ r) as [a|] eqn:Ha; [|done]. simpl in Hrun.
    destruct (last_col (inverse_transform ds a)) as [out|] eqn:Hout; [|done].
    simpl in Hrun.
    destruct (invert_series_Ok ds n r a out Hr Ha Hout) as (Hspec & Hlout & ->).
    rewrite Hrows, embed_in_target_column_rows in Hlout.
    unfold assign_row in Hrun.
    rewrite lookup_app_r, Nat.sub_diag in Hrun by done. simpl in Hrun.
    rewrite broadcast_to_same in Hrun by congruence. simpl in Hrun.
    rewrite insert_app_r_alt, Nat.sub_diag in Hrun by done. simpl in Hrun.
    specialize (IH (done ++ [out]) m' Hrows Hlen).
    rewrite length_app, <- app_assoc in IH. simpl in IH.
    rewrite Nat.add_1_r in IH. destruct (IH Hrun) as (todo' & -> & Htodo).
    exists (out :: todo'). rewrite <- app_assoc. split; [done|]. by constructor.
Qed.

(** Lines 129-152 as a whole. *)
Lemma invert_outputs_Ok (ds : Dataset V) y tp cbm bsm y' tp' cbm' bsm' :
  invert_outputs ds y tp cbm bsm = Ok (y', tp', cbm', bsm') ->
  reconstruct_transform_extract ds y = Some y'
  ∧ (length tp = length y -> reconstruct_transform_extract ds tp = Some tp')
  ∧ (length cbm = length y -> reconstruct_transform_extract ds cbm = Some cbm')
  ∧ (Forall (fun r => length r = length y) bsm ->
     (∀ a, length (rows (inverse_transform ds a)) = length (rows a)) ->
     Forall2 (fun raw out => reconstruct_transform_extract ds raw = Some out) bsm bsm')
  ∧ (tp = cbm -> tp' = cbm').
Proof.
  unfold invert_outputs. unfold_monad. intros Hrun.
  destruct (assign_last_col _ y) as [ay|] eqn:Hay; [|done]. simpl in Hrun.
  destruct (assign_last_col _ tp) as [atp|] eqn:Hatp; [|done]. simpl in Hrun.
  destruct (assign_last_col _ cbm) as [acbm|] eqn:Hacbm; [|done]. simpl in Hrun.
  destruct (last_col (inverse_transform ds ay)) as [oy|] eqn:Hoy; [|done].
  simpl in Hrun.
  destruct (last_col (inverse_transform ds atp)) as [otp|] eqn:Hotp; [|done].
  simpl in Hrun.
  destruct (last_col (inverse_transform ds acbm)) as [ocbm|] eqn:Hocbm; [|done].
  simpl in Hrun.
  destruct (invert_bsm_loop _ _ _ _ _) as [obsm|] eqn:Hobsm; [|done].
  simpl in Hrun. simplify_eq.
  destruct (invert_series_Ok ds (length y) y ay y' eq_refl Hay Hoy) as (Hy & Hly & ->).
  split; [done|]. split; [|split; [|split]].
  - intros Hl. by destruct (invert_series_Ok ds (length y) tp atp tp' Hl Hatp Hotp).
  - intros Hl. by destruct (invert_series_Ok ds (length y) cbm acbm cbm' Hl Hacbm Hocbm).
  - intros Hshape Hrows.
    rewrite Hrows, embed_in_target_column_rows in Hly. rewrite Hly in Hobsm.
    destruct (invert_bsm_loop_Ok ds (length y) bsm [] bsm' Hrows Hshape Hobsm)
      as (todo' & -> & Htodo).
    done.
  - intros ->. congruence.
Qed.

(** ** Histories across calls *)

Lemma train_in_step (w : world) :
  (∀ a y p, length p = length y -> length (adjuster_train a y p).1 = length y) ->
  histories_in_step (self w) ->
  histories_in_step (self (train w).2)
  ∧ ((train w).1 = Ok tt ∨ is_Some (y_hat (self w)) -> is_Some (y_hat (self (train w).2))).
Proof.
  intros Hadj Hinv. pose proof (train_run w) as Hrun. simpl in Hrun.
  destruct (get_data_provider _ _ _ _) as [[[ds dl]|e] p'].
  - destruct (slice_last_col _ _) as [y|e].
    + case_decide.
      * destruct (loader_iterate dl) as [bs|e].
        -- destruct Hrun as (hc & c' & Hhc & ->). simpl.
           unfold histories_in_step.
           destruct (adjuster_model (self w)) as [a|]; simpl; [|by eauto].
           rewrite Hadj by done. eauto.
        -- rewrite Hrun. simpl. split; [done|]. by intros [|].
      * rewrite Hrun. simpl. split; [done|]. by intros [|].
    + rewrite Hrun. simpl. split; [done|]. by intros [|].
  - rewrite Hrun. simpl. split; [done|]. by intros [|].
Qed.

Lemma test_state (w : world) :
  (test w).2 = (test_collect w).2.
Proof.
  unfold test. unfold_monad.
  destruct (test_collect w) as [[c|e] w1]; [|done]. simpl.
  destruct (scale (c_test_set c) && inverse (configs (self w))); [|done].
  by destruct (invert_outputs _ _ _ _ _) as [[[[y tp] cbm] bsm]|e].
Qed.

Lemma test_in_step (w : world) :
  histories_in_step (self w) ->
  histories_in_step (self (test w).2)
  ∧ (is_Some (y_hat (self w)) -> is_Some (y_hat (self (test w).2))).
Proof.
  intros Hinv. rewrite test_state.
  unfold test_collect, call_get_data_provider, np_empty_like, np_empty2.
  unfold_monad. destruct w as [pr al s]. simpl in *.
  destruct (get_data_provider (configs s) "test" true pr) as [[[ds dl]|e] p']; [|done].
  destruct (slice_last_col (seq_len (configs s)) (data_y ds)) as [y|e]; [|done].
  simpl.
  destruct (loader_iterate dl) as [bs|e]; [|done].
  match goal with
  | |- context [test_loop ?f 0 ?bs ?b0 ?w0] =>
      pose proof (test_loop_in_step f bs 0 b0 w0 Hinv) as Hloop;
      by destruct (test_loop f 0 bs b0 w0) as [[b'|e] w'']
  end.
Qed.

(** The embedding of the specification has full feature width and is zero
    outside its last column, which holds the series. *)
Lemma embed_in_target_column_lookup f (l : list V) i x :
  f ≠ 0 -> l !! i = Some x ->
  ncols (embed_in_target_column f l) = f
  ∧ ∃ r, rows (embed_in_target_column f l) !! i = Some r
      ∧ length r = f
      ∧ last r = Some x
      ∧ ∀ j, j < pred f -> r !! j = Some zero.
Proof.
  intros Hf Hx. unfold embed_in_target_column. simpl. split; [done|].
  exists (replicate (pred f) zero ++ [x]).
  rewrite list_lookup_fmap, Hx. simpl. split; [done|].
  rewrite length_app, length_replicate. simpl. split; [lia|].
  rewrite last_snoc. split; [done|].
  intros j Hj. rewrite lookup_app_l by (by rewrite length_replicate).
  by apply lookup_replicate_2.
Qed.

(** ** [train], [proceed_onestep] and [test]: the main properties *)

(** C2.  Without an adjuster: after a completed [train] the stored ensemble
    series is the stored combiner series; every completed [proceed_onestep]
    returns the combiner's prediction as ensemble and as adjusted prediction
    and keeps the two stored series equal; and a completed [test] keeps the
    two stored series equal, has written the same value into [tabe_pred]
    and [y_hat_cbm] at every step of the loader, and returns equal
    [tabe_pred] and [y_hat_cbm] whenever the loader has as many steps as
    there are truths, or no inverse transformation is applied. *)
Theorem no_adjuster_ensemble_is_combiner (w : world) :
  adjuster_model (self w) = None ->
  (∀ w', train w = (Ok tt, w') ->
     adjuster_model (self w') = None
     ∧ ∃ hc, y_hat (self w') = Some hc ∧ y_hat_cbm (self w') = Some hc)
  ∧ (∀ bx by_ bxm bym training y_hat_tabe y_hat_adj y_hat_cbm_t y_hat_bsm w',
       proceed_onestep bx by_ bxm bym training w
         = (Ok (y_hat_tabe, y_hat_adj, y_hat_cbm_t, y_hat_bsm), w') ->
       y_hat_tabe = y_hat_cbm_t ∧ y_hat_adj = y_hat_cbm_t
       ∧ adjuster_model (self w') = None
       ∧ (y_hat (self w) = y_hat_cbm (self w) ->
          y_hat (self w') = y_hat_cbm (self w')))
  ∧ (∀ r w', test w = (Ok r, w') ->
       adjuster_model (self w') = None
       ∧ (y_hat (self w) = y_hat_cbm (self w) ->
          y_hat (self w') = y_hat_cbm (self w'))
       ∧ ∃ c, test_collect w = (Ok c, w')
           ∧ (∀ t, t < length (loader_batches (c_test_loader c)) ->
                b_tabe_pred (c_buffers c) !! t = b_y_hat_cbm (c_buffers c) !! t)
           ∧ (scale (c_test_set c) && inverse (configs (self w)) = false ->
              ∀ t, t < length (loader_batches (c_test_loader c)) ->
                r_tabe_pred r !! t = r_y_hat_cbm r !! t)
           ∧ (length (loader_batches (c_test_loader c)) = length (c_y c) ->
              r_tabe_pred r = r_y_hat_cbm r)).
Proof.
  intros Hadj. split; [|split].
  - intros w' Htrain. pose proof (train_run w) as Hrun. simpl in Hrun.
    destruct (get_data_provider _ _ _ _) as [[[ds dl]|e] p']; [|congruence].
    destruct (slice_last_col _ _) as [y|e]; [|congruence].
    case_decide; [|congruence].
    destruct (loader_iterate dl) as [bs|e]; [|congruence].
    destruct Hrun as (hc & c' & _ & Hrun). rewrite Hrun, Hadj in Htrain.
    simplify_eq. simpl. eauto.
  - intros bx by_ bxm bym training q1 q2 p bsm w' Hstep.
    apply proceed_onestep_Ok in Hstep
      as (_ & _ & y & p' & bsm' & c' & q & am' & hy & ht & hc & _ & _ & Ha
          & Hhy & Hht & Hhc & Hr & ->).
    rewrite Hadj in Ha. destruct Ha as [-> ->]. simplify_eq. simpl.
    split; [done|]. split; [done|]. split; [done|].
    rewrite Hhy, Hhc. congruence.
  - intros r w' Htest.
    apply test_Ok in Htest as (c & Hc & _ & _ & _ & _ & Hout).
    pose proof Hc as Hc'.
    apply test_collect_Ok in Hc'
      as (p' & b0 & _ & _ & _ & _ & _ & Hl1 & Hl2 & Hl3 & Hloop).
    pose proof Hloop as Hshape.
    apply (test_loop_shape _ (length (c_y c))) in Hshape as (Hs1 & Hs2 & _); [|done].
    apply test_loop_no_adjuster in Hloop as (Hadj' & Hhist & Hnew & _); [|done].
    simpl in Hhist. split; [done|]. split; [done|].
    assert (Hsteps : ∀ t, t < length (loader_batches (c_test_loader c)) ->
              b_tabe_pred (c_buffers c) !! t = b_y_hat_cbm (c_buffers c) !! t).
    { intros t Ht. apply Hnew. lia. }
    exists c. split; [done|]. split; [done|]. split.
    + intros Hneed. rewrite Hneed in Hout. destruct Hout as (_ & -> & -> & _). done.
    + intros Hlen.
      assert (Heq : b_tabe_pred (c_buffers c) = b_y_hat_cbm (c_buffers c)).
      { apply list_eq. intros t.
        destruct (decide (t < length (c_y c))) as [Ht|Ht].
        - apply Hsteps. lia.
        - rewrite !lookup_ge_None_2; [done|lia|lia]. }
      destruct (scale (c_test_set c) && inverse (configs (self w))).
      * by apply invert_outputs_Ok in Hout as (_ & _ & _ & _ & ->).
      * by destruct Hout as (_ & -> & -> & _).
Qed.

(** C3 (amended).  Provided the adjuster's batch training returns a series
    as long as the truths it is given: in every state a program reaches by
    constructing the instance and calling [train], [test] and
    [proceed_onestep] (calls that raise included), the three stored
    histories are in step; after a completed [train] or [proceed_onestep],
    and after a completed [test] that found them present, they are present
    with one common length; and a completed [proceed_onestep] appends exactly
    one entry to each of them. *)
Theorem histories_in_step_after_calls (w : world) (c : call) :
  (∀ a y p, length p = length y -> length (adjuster_train a y p).1 = length y) ->
  reachable w ->
  (run_call c w).1 = Ok tt ->
  histories_in_step (self (run_call c w).2)
  ∧ (c ≠ CallTest ∨ is_Some (y_hat (self w)) ->
     ∃ hy ht hc,
       y_hat (self (run_call c w).2) = Some hy
       ∧ truths (self (run_call c w).2) = Some ht
       ∧ y_hat_cbm (self (run_call c w).2) = Some hc
       ∧ length hy = length ht ∧ length ht = length hc)
  ∧ (∀ bx by_ bxm bym training,
       c = CallProceedOnestep bx by_ bxm bym training ->
       ∃ hy ht hc q y p,
         y_hat (self w) = Some hy ∧ truths (self w) = Some ht
         ∧ y_hat_cbm (self w) = Some hc
         ∧ y_hat (self (run_call c w).2) = Some (hy ++ [q])
         ∧ truths (self (run_call c w).2) = Some (ht ++ [y])
         ∧ y_hat_cbm (self (run_call c w).2) = Some (hc ++ [p])).
Proof.
  intros Hadj Hreach.
  assert (Hstep : ∀ c' (w0 : world), histories_in_step (self w0) ->
            histories_in_step (self (run_call c' w0).2)
            ∧ (((run_call c' w0).1 = Ok tt ∧ c' ≠ CallTest) ∨ is_Some (y_hat (self w0)) ->
               is_Some (y_hat (self (run_call c' w0).2)))).
  { intros [| |bx by_ bxm bym training] w0 Hinv; simpl.
    - destruct (train_in_step w0 Hadj Hinv) as [H1 H2]. split; [done|].
      intros [[? _]|?]; apply H2; auto.
    - unfold_monad. pose proof (test_in_step w0 Hinv) as [H1 H2].
      destruct (test w0) as [[r|e] w1]; simpl in *; (split; [done|]);
        intros [[_ ?]|?]; by auto.
    - unfold_monad.
      pose proof (proceed_onestep_in_step bx by_ bxm bym training w0 Hinv) as [H1 H2].
      destruct (proceed_onestep _ _ _ _ _ w0) as [[r|e] w1] eqn:Hrun; simpl in *.
      + split; [done|]. intros _.
        apply proceed_onestep_Ok in Hrun
          as (_ & _ & y & p' & bsm' & c0 & q & am' & hy & ht & hc & _ & _ & _
              & _ & _ & _ & _ & ->).
        simpl. eauto.
      + split; [done|]. intros [[? _]|?]; by auto. }
  assert (Hinv : histories_in_step (self w)).
  { induction Hreach as [p n cf cm am|w0 c0 _ IH]; [done|].
    by destruct (Hstep c0 w0 IH). }
  intros Hdone.
  destruct (Hstep c w Hinv) as [Hinv' Hsome]. split; [done|]. split.
  - intros Hc.
    assert (Hy : is_Some (y_hat (self (run_call c w).2))).
    { apply Hsome. destruct Hc as [Hne|Hy]; [by left | by right]. }
    unfold histories_in_step in Hinv'. destruct Hy as [hy Hy]. rewrite Hy in Hinv'.
    destruct (truths (self (run_call c w).2)) as [ht|],
             (y_hat_cbm (self (run_call c w).2)) as [hc|]; try done.
    exists hy, ht, hc. by destruct Hinv'.
  - intros bx by_ bxm bym training ->. simpl in *. unfold_monad.
    destruct (proceed_onestep _ _ _ _ _ w) as [[r|e] w1] eqn:Hrun; simpl in *; [|done].
    apply proceed_onestep_Ok in Hrun
      as (_ & _ & y & p' & bsm' & c0 & q & am' & hy & ht & hc & _ & _ & _
          & Hhy & Hht & Hhc & _ & ->).
    exists hy, ht, hc, q, y, p'. simpl. done.
Qed.

(** C6.  For the split of [train] (['ensemble_train']) and for the split of
    [test] (['test']), whose [data_y] is an array with at least one column:
    the slice [y = data_y[seq_len:, -1]] exists and is the target column
    (the last feature) offset by the input window length - one entry per row
    from row [seq_len] on, entry [i] being the last feature of row
    [seq_len + i].  No row is left out at the end: the final entry is the
    final row's, and the series stops there, so the step that follows the
    final row (whose truth the split does not hold) has no entry.  A
    completed [train] stores exactly this series as truths, and a completed
    [test] returns exactly this series, as it is or, when the data is
    inverted, put through the reconstruction pattern. *)
Theorem truths_are_target_column_from_seq_len
    (w : world) (flag : string) data_set data_loader p' :
  flag = "ensemble_train"%string ∨ flag = "test"%string ->
  get_data_provider (configs (self w)) flag true (provider w)
    = (Ok (data_set, data_loader), p') ->
  ncols (data_y data_set) ≠ 0 ->
  Forall (fun row => length row = ncols (data_y data_set)) (rows (data_y data_set)) ->
  ∃ y,
    slice_last_col (seq_len (configs (self w))) (data_y data_set) = Ok y
    ∧ length y = length (rows (data_y data_set)) - seq_len (configs (self w))
    ∧ (∀ i, i < length y ->
         ∃ row x,
           rows (data_y data_set) !! (seq_len (configs (self w)) + i) = Some row
           ∧ last row = Some x ∧ y !! i = Some x)
    ∧ (seq_len (configs (self w)) < length (rows (data_y data_set)) ->
         last y = last (rows (data_y data_set)) ≫= last)
    ∧ y !! (length (rows (data_y data_set)) - seq_len (configs (self w))) = None
    ∧ (flag = "ensemble_train"%string ->
         ∀ w', train w = (Ok tt, w') -> truths (self w') = Some y)
    ∧ (flag = "test"%string ->
         ∀ r w', test w = (Ok r, w') ->
           if scale data_set && inverse (configs (self w))
           then reconstruct_transform_extract data_set y = Some (r_y r)
           else r_y r = y).
Proof.
  intros Hflag Hget Hcols Hrect.
  destruct (slice_last_col_rectangular (seq_len (configs (self w))) _ Hcols Hrect)
    as (y & Hy & Hlen & Hi & Hlast).
  exists y. split; [done|]. split; [done|]. split; [done|]. split; [done|].
  split; [apply lookup_ge_None_2; lia|]. split.
  - intros -> w' Htrain. pose proof (train_run w) as Hrun. simpl in Hrun.
    rewrite Hget, Hy in Hrun.
    case_decide; [|congruence].
    destruct (loader_iterate data_loader) as [bs|e]; [|congruence].
    destruct Hrun as (hc & c' & _ & Hrun). rewrite Hrun in Htrain. simplify_eq.
    by destruct (adjuster_model (self w)).
  - intros -> r w' Htest.
    apply test_Ok in Htest as (c & Hc & _ & _ & _ & _ & Hout).
    apply test_collect_Ok in Hc as (p1 & b0 & Hget' & Hy' & _).
    rewrite Hget in Hget'. simplify_eq. rewrite Hy in Hy'. simplify_eq.
    destruct (scale (c_test_set c) && inverse (configs (self w))).
    + by apply invert_outputs_Ok in Hout as (? & _).
    + by destruct Hout as (-> & _).
Qed.

(** C9.  When the test dataset is scaled and [configs.inverse] is set, and
    the dataset's inverse transform keeps the number of rows (it maps N x F
    to N x F), each series [test] returns - the truths, the ensemble
    prediction, the combiner prediction and every base model's row - is the
    series collected by the loop put through one and the same pattern:
    embedded into the last (target) column of an all-zero matrix of full
    feature width, inverse-transformed, and read back from that column. *)
Theorem test_inverse_transform_pattern (w : world) c r w' :
  test_collect w = (Ok c, w') ->
  test w = (Ok r, w') ->
  scale (c_test_set c) && inverse (configs (self w)) = true ->
  (∀ a, length (rows (inverse_transform (c_test_set c) a)) = length (rows a)) ->
  reconstruct_transform_extract (c_test_set c) (c_y c) = Some (r_y r)
  ∧ reconstruct_transform_extract (c_test_set c) (b_tabe_pred (c_buffers c))
      = Some (r_tabe_pred r)
  ∧ reconstruct_transform_extract (c_test_set c) (b_y_hat_cbm (c_buffers c))
      = Some (r_y_hat_cbm r)
  ∧ Forall2 (fun raw out => reconstruct_transform_extract (c_test_set c) raw = Some out)
      (b_y_hat_bsm (c_buffers c)) (r_y_hat_bsm r).
Proof.
  intros Hc Htest Hneed Hrows.
  apply test_Ok in Htest as (c0 & Hc0 & _ & _ & _ & _ & Hout).
  rewrite Hc in Hc0. simplify_eq. rewrite Hneed in Hout.
  apply test_collect_Ok in Hc as (p' & b0 & _ & _ & _ & _ & _ & Hl1 & Hl2 & Hl3 & Hloop).
  apply (test_loop_shape _ (length (c_y c0))) in Hloop as (Hs1 & Hs2 & Hs3); [|done].
  apply invert_outputs_Ok in Hout as (Hy & Htp & Hcbm & Hbsm & _).
  split; [done|]. split; [apply Htp; congruence|].
  split; [apply Hcbm; congruence|]. by apply Hbsm.
Qed.

(** C10.  Whenever [test] returns, its seventh result is [None], and its
    fifth, sixth and eighth results are the buffers allocated fifth, sixth
    and seventh by [np.empty_like(y)], with the contents they had when they
    were allocated: nothing the combiner, the adjuster or the loader
    produced is in them. *)
Theorem test_returns_unwritten_buffers (w : world) r w' :
  test w = (Ok r, w') ->
  r_buy_threshold_q r = None
  ∧ ∃ test_set test_loader p' y,
      get_data_provider (configs (self w)) "test" true (provider w)
        = (Ok (test_set, test_loader), p')
      ∧ slice_last_col (seq_len (configs (self w))) (data_y test_set) = Ok y
      ∧ r_y_hat_q_low r = uninitialized (4 + allocations w) <$> seq 0 (length y)
      ∧ r_y_hat_q_high r = uninitialized (5 + allocations w) <$> seq 0 (length y)
      ∧ r_devi_stddev r = uninitialized (6 + allocations w) <$> seq 0 (length y).
Proof.
  intros Htest.
  apply test_Ok in Htest as (c & Hc & -> & -> & -> & Hnone & _).
  apply test_collect_Ok in Hc as (p' & b0 & Hget & Hy & Hlow & Hhigh & Hdevi & _).
  split; [done|]. exists (c_test_set c), (c_test_loader c), p', (c_y c). done.
Qed.

(** ** Further properties of [train] *)

Lemma combiner_predictions_length bs : ∀ c training,
  length (combiner_predictions c bs training).1 = length bs.
Proof.
  induction bs as [|b bs IH]; intros c training; simpl; [done|].
  destruct (combiner_proceed_onestep _ _ _ _ _ _) as [[p bsm] c1].
  specialize (IH c1 training).
  destruct (combiner_predictions c1 bs training) as [ps c2]. simpl in *. by rewrite IH.
Qed.

(** The collection loop writes the combiner's predictions, in order, over
    the slots [t .. t + len(bs) - 1] of the buffer. *)
Lemma train_loop_collects astype bs : ∀ t arr (w : world),
  t + length bs ≤ length arr ->
  train_loop astype t bs arr w
  = (Ok (take t arr
         ++ (astype <$> (combiner_predictions (combiner_model (self w)) bs None).1)
         ++ drop (t + length bs) arr),
     MkWorld (provider w) (allocations w)
       (set_combiner_model (combiner_predictions (combiner_model (self w)) bs None).2
          (self w))).
Proof.
  induction bs as [|b bs IH]; intros t arr w Hlen; simpl in *.
  - unfold_monad. rewrite Nat.add_0_r, take_drop. by destruct w as [pr al []].
  - unfold call_combiner_proceed_onestep. unfold_monad.
    destruct (combiner_proceed_onestep _ _ _ _ _ _) as [[p bsm] c1].
    rewrite setitem_lt by lia. rewrite IH by (rewrite length_insert; lia). simpl.
    destruct (combiner_predictions c1 bs None) as [ps c2]. simpl.
    rewrite (take_S_r _ _ (astype p)) by (apply list_lookup_insert_eq; lia).
    rewrite take_insert_ge, drop_insert_lt by lia.
    rewrite <- app_assoc. simpl.
    replace (S (t + length bs)) with (t + S (length bs)) by lia.
    by destruct w as [pr al []].
Qed.

(** [train] as a function of the state it starts from. *)
Lemma train_eq (w : world) :
  train w =
    let s := self w in
    let s1 := set_combiner_model (combiner_train (combiner_model s)) s in
    match get_data_provider (configs s) "ensemble_train" true (provider w) with
    | (Raise e, p') => (Raise e, MkWorld p' (allocations w) s1)
    | (Ok (train_dataset, train_loader), p') =>
        match slice_last_col (seq_len (configs s)) (data_y train_dataset) with
        | Raise e => (Raise e, MkWorld p' (allocations w) s1)
        | Ok y =>
            if bool_decide (length y = length (loader_batches train_loader)) then
              match loader_iterate train_loader with
              | Raise e => (Raise e, MkWorld p' (S (allocations w)) s1)
              | Ok _ =>
                  let '(ps, c') :=
                    combiner_predictions (combiner_train (combiner_model s))
                      (loader_batches train_loader) None in
                  let hc := data_y_astype train_dataset <$> ps in
                  (Ok tt, MkWorld p' (S (allocations w))
                    match adjuster_model s with
                    | None => MkTabeModel (configs s) c' None (Some hc) (Some y) (Some hc)
                    | Some a =>
                        MkTabeModel (configs s) c' (Some (adjuster_train a y hc).2)
                          (Some (adjuster_train a y hc).1) (Some y) (Some hc)
                    end)
              end
            else (Raise AssertionError, MkWorld p' (allocations w) s1)
        end
    end.
Proof.
  destruct w as [pr al [cf cm am yh tr yc]]. simpl.
  unfold train, call_combiner_train, call_get_data_provider, np_empty_like,
    call_adjuster_train.
  unfold_monad. simpl.
  destruct (get_data_provider cf "ensemble_train" true pr) as [[[ds dl]|e] p']; [|done].
  destruct (slice_last_col (seq_len cf) (data_y ds)) as [y|e]; [|done].
  case_bool_decide as Hlen; [|done].
  destruct (loader_iterate dl) as [bs|e] eqn:Hbs; [|done].
  apply loader_iterate_Ok in Hbs as ->.
  rewrite train_loop_collects by (rewrite length_fmap, length_seq; simpl; lia).
  simpl. pose proof (combiner_predictions_length (loader_batches dl) (combiner_train cm) None)
    as Hps.
  destruct (combiner_predictions (combiner_train cm) (loader_batches dl) None) as [ps c'].
  simpl in *. rewrite drop_ge by (rewrite length_fmap, length_seq; lia).
  rewrite app_nil_r. destruct am as [a|]; simpl; [|done].
  by destruct (adjuster_train a y (data_y_astype ds <$> ps)).
Qed.

(** X8.  After a completed [train] the stored combiner series holds, slot by
    slot and in loader order, the predictions of the combiner run over the
    loader's windows from its freshly trained state (with [training] left to
    its default), each converted to the dtype of [data_y] as it was stored;
    no slot of the [np.empty_like] buffer keeps its unwritten content, and
    the combiner is left in the state that run ends in. *)
Theorem train_collects_combiner_predictions (w : world) w' :
  train w = (Ok tt, w') ->
  ∃ train_dataset train_loader p',
    get_data_provider (configs (self w)) "ensemble_train" true (provider w)
      = (Ok (train_dataset, train_loader), p')
    ∧ y_hat_cbm (self w')
      = Some (data_y_astype train_dataset
                <$> (combiner_predictions (combiner_train (combiner_model (self w)))
                       (loader_batches train_loader) None).1)
    ∧ combiner_model (self w')
      = (combiner_predictions (combiner_train (combiner_model (self w)))
           (loader_batches train_loader) None).2.
Proof.
  rewrite train_eq. simpl.
  destruct (get_data_provider _ _ _ _) as [[[ds dl]|e] p'] eqn:Hget; [|done].
  destruct (slice_last_col _ _) as [y|e]; [|done].
  case_bool_decide; [|done].
  destruct (loader_iterate dl) as [bs|e]; [|done].
  destruct (combiner_predictions _ _ _) as [ps c'] eqn:Hps.
  intros [= <-]. exists ds, dl, p'. split; [done|]. rewrite Hps.
  by destruct (adjuster_model (self w)).
Qed.

(** X9.  [train] does not build on what is stored: whatever histories the
    instance holds when [train] is called, the call ends the same way, and
    when it returns the whole resulting state is the same.  (When it raises,
    the histories are left as they were.) *)
Theorem train_replaces_histories (w : world) hy ht hc :
  (train (with_histories hy ht hc w)).1 = (train w).1
  ∧ ((train w).1 = Ok tt -> (train (with_histories hy ht hc w)).2 = (train w).2)
  ∧ ((train w).1 ≠ Ok tt ->
       y_hat (self (train w).2) = y_hat (self w)
       ∧ truths (self (train w).2) = truths (self w)
       ∧ y_hat_cbm (self (train w).2) = y_hat_cbm (self w)).
Proof.
  rewrite !train_eq. destruct w as [pr al [cf cm am yh tr yc]]. simpl.
  destruct (get_data_provider cf "ensemble_train" true pr) as [[[ds dl]|e] p']; [|done].
  destruct (slice_last_col (seq_len cf) (data_y ds)) as [y|e]; [|done].
  case_bool_decide; [|done].
  destruct (loader_iterate dl) as [bs|e]; [|done].
  destruct (combiner_predictions _ _ _) as [hc' c']. simpl. done.
Qed.

(** X10.  Training again reuses what the first [train] cached: a [train]
    that follows a completed [train] returns too, leaves the caches exactly
    as they are (the dataset and the loader are not rebuilt) and stores the
    same truths. *)
Theorem train_again (w : world) w1 :
  train w = (Ok tt, w1) ->
  (train w1).1 = Ok tt
  ∧ provider (train w1).2 = provider w1
  ∧ truths (self (train w1).2) = truths (self w1).
Proof.
  intros Hfirst. rewrite train_eq in Hfirst. simpl in Hfirst.
  destruct (get_data_provider _ _ _ (provider w)) as [[[ds dl]|e] p'] eqn:Hget; [|done].
  destruct (slice_last_col _ _) as [y|e] eqn:Hy; [|done].
  case_bool_decide as Hlen; [|done].
  destruct (loader_iterate dl) as [bs|e] eqn:Hbs; [|done].
  destruct (combiner_predictions _ _ _) as [hc c'].
  assert (configs (self w1) = configs (self w)
          ∧ provider w1 = p' ∧ truths (self w1) = Some y) as (Hcf & Hp & Ht).
  { simplify_eq. simpl. by destruct (adjuster_model (self w)). }
  clear Hfirst. rewrite train_eq. simpl. rewrite Hcf, Hp.
  destruct (get_data_provider_cached _ _ _ _ _ _ _ Hget) as [Hd Hl].
  rewrite (get_data_provider_hit _ _ _ _ _ _ Hd Hl), Hy.
  rewrite bool_decide_eq_true_2 by done. rewrite Hbs.
  destruct (combiner_predictions _ _ _) as [hc2 c2]. simpl.
  split; [done|]. split; [done|]. rewrite Ht.
  by destruct (adjuster_model (self w1)).
Qed.

(** ** Further properties of [proceed_onestep] *)

(** X11.  [proceed_onestep] returns exactly when both batch dimensions are
    1, the target window has a truth entry [[0, -1, -1]], and the three
    histories have been stored (by [train]). *)
Theorem proceed_onestep_returns_iff bx by_ bxm bym training (w : world) :
  (∃ r, (proceed_onestep bx by_ bxm bym training w).1 = Ok r)
  ↔ length bx = 1 ∧ length by_ = 1
    ∧ (∃ y, item_0_m1_m1 by_ = Ok y)
    ∧ is_Some (y_hat (self w)) ∧ is_Some (truths (self w))
    ∧ is_Some (y_hat_cbm (self w)).
Proof.
  split.
  - intros [r Hr].
    destruct (proceed_onestep bx by_ bxm bym training w) as [r' w'] eqn:Hrun.
    simpl in Hr. subst r'.
    apply proceed_onestep_Ok in Hrun
      as (Hx & Hy & y & p & bsm & c' & q & am' & hy & ht & hc & Hitem & _ & _
          & Hhy & Hht & Hhc & _).
    rewrite Hhy, Hht, Hhc. eauto 10.
  - intros (Hx & Hy & [y Hitem] & [hy Hhy] & [ht Hht] & [hc Hhc]).
    unfold proceed_onestep, call_combiner_proceed_onestep,
      call_adjuster_proceed_onestep.
    unfold_monad.
    rewrite (bool_decide_eq_true_2 _ Hx), (bool_decide_eq_true_2 _ Hy), Hitem.
    destruct w as [pr al [cf cm am yh tr yc]]. simpl in *. subst.
    destruct (combiner_proceed_onestep cm bx by_ bxm bym (Some training))
      as [[p bsm] c1].
    simpl. destruct am as [a|]; simpl; [|by eauto].
    destruct (adjuster_proceed_onestep a y p training) as [q a']. simpl. by eauto.
Qed.

(** X12.  Called before [train] has stored [y_hat_cbm], on a well-formed
    window, [proceed_onestep] raises [AttributeError] - but only after the
    combiner and the adjuster have been called with the window and its
    truth: their states have moved on, though no prediction is returned or
    recorded. *)
Theorem proceed_onestep_before_train bx by_ bxm bym training (w : world) y :
  length bx = 1 -> length by_ = 1 ->
  item_0_m1_m1 by_ = Ok y ->
  y_hat_cbm (self w) = None ->
  proceed_onestep bx by_ bxm bym training w
  = (Raise AttributeError,
     MkWorld (provider w) (allocations w)
       (let step := combiner_proceed_onestep (combiner_model (self w))
                      bx by_ bxm bym (Some training) in
        MkTabeModel (configs (self w)) step.2
          (match adjuster_model (self w) with
           | None => None
           | Some a => Some (adjuster_proceed_onestep a y step.1.1 training).2
           end)
          (y_hat (self w)) (truths (self w)) None)).
Proof.
  intros Hx Hy Hitem Hc.
  unfold proceed_onestep, call_combiner_proceed_onestep, call_adjuster_proceed_onestep.
  unfold_monad.
  rewrite (bool_decide_eq_true_2 _ Hx), (bool_decide_eq_true_2 _ Hy), Hitem.
  destruct w as [pr al [cf cm am yh tr yc]]. simpl in *. subst.
  destruct (combiner_proceed_onestep cm bx by_ bxm bym (Some training))
    as [[p bsm] c1].
  simpl. destruct am as [a|]; simpl; [|done].
  by destruct (adjuster_proceed_onestep a y p training) as [q a'].
Qed.

(** X13.  A target window of batch size 1 that has no step, or whose last
    step has no feature, makes [proceed_onestep] raise [IndexError] before
    any collaborator is called: the state is untouched. *)
Theorem proceed_onestep_empty_target bx by_ bxm bym training (w : world) :
  length bx = 1 -> length by_ = 1 ->
  (∀ y, item_0_m1_m1 by_ ≠ Ok y) ->
  proceed_onestep bx by_ bxm bym training w = (Raise IndexError, w).
Proof.
  intros Hx Hy Hitem.
  unfold proceed_onestep. unfold_monad.
  rewrite (bool_decide_eq_true_2 _ Hx), (bool_decide_eq_true_2 _ Hy). simpl.
  destruct (item_0_m1_m1 by_) as [y|e] eqn:He; [by destruct (Hitem y)|].
  by apply item_0_m1_m1_Raise in He as ->.
Qed.

(** ** Further properties of [test] *)

(** What the loop of [test] appends to the histories, and what it collects. *)
Lemma test_loop_history astype bs : ∀ t b (w : world) b' w' hy ht hc,
  test_loop astype t bs b w = (Ok b', w') ->
  y_hat (self w) = Some hy -> truths (self w) = Some ht ->
  y_hat_cbm (self w) = Some hc ->
  ∃ qs ys ps,
    y_hat (self w') = Some (hy ++ qs) ∧ truths (self w') = Some (ht ++ ys)
    ∧ y_hat_cbm (self w') = Some (hc ++ ps)
    ∧ Forall2 (fun x y => item_0_m1_m1 (batch_y x) = Ok y) bs ys
    ∧ length qs = length bs ∧ length ps = length bs
    ∧ (∀ i, i < length bs ->
         b_tabe_pred b' !! (t + i) = astype <$> qs !! i
         ∧ b_y_hat_cbm b' !! (t + i) = astype <$> ps !! i)
    ∧ (∀ i, i < t ->
         b_tabe_pred b' !! i = b_tabe_pred b !! i
         ∧ b_y_hat_cbm b' !! i = b_y_hat_cbm b !! i).
Proof.
  induction bs as [|x bs IH]; intros t b w b' w' hy ht hc Hrun Hhy Hht Hhc.
  - simpl in Hrun. unfold_monad. simplify_eq. exists [], [], [].
    rewrite !app_nil_r. repeat split; try done. all: simpl in *; lia.
  - apply test_loop_cons in Hrun
      as (q1 & q2 & p & bsm & w1 & m & Hstep & Ht & _ & Hc & _ & Hrest).
    apply proceed_onestep_Ok in Hstep
      as (_ & _ & y & p' & bsm' & c' & q & am' & hy' & ht' & hc' & Hitem & _ & _
          & Hhy' & Hht' & Hhc' & Hr & ->).
    simplify_eq.
    eapply IH in Hrest as (qs & ys & ps & Hy1 & Ht1 & Hc1 & Hitems & Hlq & Hlp
                           & Hnew & Hold); [|done..].
    exists (q :: qs), (y :: ys), (p' :: ps). simpl in *.
    rewrite <- !app_assoc in Hy1, Ht1, Hc1. simpl in *.
    split; [done|]. split; [done|]. split; [done|].
    split; [by constructor|]. split; [by rewrite Hlq|]. split; [by rewrite Hlp|].
    split.
    + intros [|i] Hi.
      * rewrite Nat.add_0_r. destruct (Hold t) as [-> ->]; [lia|].
        by rewrite !list_lookup_insert_eq.
      * replace (t + S i) with (S t + i) by lia. apply Hnew. lia.
    + intros i Hi. destruct (Hold i) as [-> ->]; [lia|].
      by rewrite !list_lookup_insert_ne by lia.
Qed.

(** X14.  A completed [test] that found the histories stored appends one
    entry per loader step to each of them, in loader order: the truths
    appended are the truth entries [[0, -1, -1]] of the windows (not the
    slice of [data_y] that [test] returns), and the ensemble and combiner
    values appended are the values returned at those steps, of which
    [tabe_pred] and [y_hat_cbm] hold, over the steps of the loader, the
    conversions to the dtype of [data_y]. *)
Theorem test_records_steps (w : world) r w' hy ht hc :
  test w = (Ok r, w') ->
  y_hat (self w) = Some hy -> truths (self w) = Some ht ->
  y_hat_cbm (self w) = Some hc ->
  ∃ c ys qs ps,
    test_collect w = (Ok c, w')
    ∧ Forall2 (fun x y => item_0_m1_m1 (batch_y x) = Ok y)
        (loader_batches (c_test_loader c)) ys
    ∧ length qs = length (loader_batches (c_test_loader c))
    ∧ length ps = length (loader_batches (c_test_loader c))
    ∧ truths (self w') = Some (ht ++ ys)
    ∧ y_hat (self w') = Some (hy ++ qs)
    ∧ y_hat_cbm (self w') = Some (hc ++ ps)
    ∧ take (length (loader_batches (c_test_loader c))) (b_tabe_pred (c_buffers c))
      = data_y_astype (c_test_set c) <$> qs
    ∧ take (length (loader_batches (c_test_loader c))) (b_y_hat_cbm (c_buffers c))
      = data_y_astype (c_test_set c) <$> ps.
Proof.
  intros Htest Hhy Hht Hhc.
  apply test_Ok in Htest as (c & Hc & _).
  pose proof Hc as Hc'.
  apply test_collect_Ok in Hc' as (p' & b0 & _ & _ & _ & _ & _ & _ & _ & _ & Hloop).
  eapply test_loop_history in Hloop
    as (qs & ys & ps & Hy1 & Ht1 & Hc1 & Hitems & Hlq & Hlp & Hnew & _); [|done..].
  exists c, ys, qs, ps. split; [done|]. split; [done|]. split; [done|].
  split; [done|]. split; [done|]. split; [done|]. split; [done|].
  assert (Htake : ∀ (buf new : list V),
            length new = length (loader_batches (c_test_loader c)) ->
            (∀ i, i < length (loader_batches (c_test_loader c)) ->
               buf !! i = data_y_astype (c_test_set c) <$> new !! i) ->
            take (length (loader_batches (c_test_loader c))) buf
            = data_y_astype (c_test_set c) <$> new).
  { intros buf new Hlen Hi. apply list_eq. intros i.
    rewrite lookup_take, list_lookup_fmap.
    case_decide; [by apply Hi|]. symmetry.
    rewrite lookup_ge_None_2; [done|lia]. }
  split; apply Htake; try done.
  - intros i Hi. by destruct (Hnew i Hi).
  - intros i Hi. by destruct (Hnew i Hi).
Qed.

(** X15.  In the loop of [test], a step whose index is past the end of the
    buffers raises [IndexError] - after [proceed_onestep] has run for it:
    when the loader yields more steps than there are truths, the extra step
    has been fed to the models and appended to the histories by the time
    the error is raised. *)
Theorem test_loop_overrun astype t x bs b (w : world) r w1 :
  length (b_tabe_pred b) ≤ t ->
  proceed_onestep (batch_x x) (batch_y x) (batch_x_mark x) (batch_y_mark x) true w
    = (Ok r, w1) ->
  test_loop astype t (x :: bs) b w = (Raise IndexError, w1)
  ∧ ∃ ht y, truths (self w) = Some ht ∧ truths (self w1) = Some (ht ++ [y]).
Proof.
  intros Ht Hstep. split.
  - simpl. unfold_monad. rewrite Hstep. destruct r as [[[q1 q2] p] bsm].
    unfold setitem. by rewrite (proj2 (Nat.ltb_ge _ _) Ht).
  - apply proceed_onestep_Ok in Hstep
      as (_ & _ & y & p' & bsm' & c' & q & am' & hy & ht & hc & _ & _ & _
          & _ & Hht & _ & _ & ->).
    exists ht, y. by split.
Qed.

(** X16.  The width of the per-base-model array comes from the combiner's
    [basemodels]; the vector the combiner returns at a step is not checked
    against it.  In the loop of [test], a returned vector whose length is
    neither the number of rows nor 1 raises [ValueError] at that step, after
    the step has been processed and the three 1-D buffers written. *)
Theorem test_loop_width_mismatch astype t x bs b (w : world) q1 q2 p bsm w1 :
  proceed_onestep (batch_x x) (batch_y x) (batch_x_mark x) (batch_y_mark x) true w
    = (Ok (q1, q2, p, bsm), w1) ->
  t < length (b_tabe_pred b) -> t < length (b_y_hat_adj b) ->
  t < length (b_y_hat_cbm b) ->
  Forall (fun row => t < length row) (b_y_hat_bsm b) ->
  length bsm ≠ length (b_y_hat_bsm b) -> length bsm ≠ 1 ->
  test_loop astype t (x :: bs) b w = (Raise ValueError, w1).
Proof.
  intros Hstep H1 H2 H3 Hrows Hn H1'.
  simpl. unfold_monad. rewrite Hstep. rewrite !setitem_lt by done. simpl.
  unfold assign_col, broadcast_to.
  rewrite (proj2 (forallb_forall _ _)).
  2:{ intros row Hin. apply Nat.ltb_lt.
      rewrite Forall_forall in Hrows. apply Hrows. by apply list_elem_of_In. }
  rewrite (proj2 (Nat.eqb_neq _ _) Hn).
  by destruct bsm as [|v [|??]].
Qed.

Lemma test_loop_rows astype n bs : ∀ t b (w : world) b' w',
  test_loop astype t bs b w = (Ok b', w') ->
  Forall (fun r => length r = n) (b_y_hat_bsm b) ->
  length (b_y_hat_bsm b') = length (b_y_hat_bsm b).
Proof.
  induction bs as [|x bs IH]; intros t b w b' w' Hrun Hrows.
  - simpl in Hrun. unfold_monad. by simplify_eq.
  - apply test_loop_cons in Hrun
      as (q1 & q2 & p & bsm & w1 & m & _ & _ & _ & _ & Hm & Hrest).
    apply (assign_col_Ok n) in Hm as [Hlen Hm]; [|done].
    apply IH in Hrest; [|done]. simpl in *. congruence.
Qed.

Lemma reconstruct_transform_extract_length (ds : Dataset V) (l out : list V) :
  (∀ a, length (rows (inverse_transform ds a)) = length (rows a)) ->
  reconstruct_transform_extract ds l = Some out -> length out = length l.
Proof.
  intros Hrows Hout. unfold reconstruct_transform_extract, extract_target_column in Hout.
  apply length_mapM in Hout. rewrite Hrows, embed_in_target_column_rows in Hout. done.
Qed.

(** X17.  The shape of what [test] returns (for an inverse transform that
    keeps the number of rows, when one is applied): every 1-D result has one
    entry per truth of the split, and the per-base-model result has one row
    per base model the combiner reported when [test] was called, each row as
    long as the truths. *)
Theorem test_result_shapes (w : world) c r w' :
  test_collect w = (Ok c, w') ->
  test w = (Ok r, w') ->
  (scale (c_test_set c) && inverse (configs (self w)) = true ->
   ∀ a, length (rows (inverse_transform (c_test_set c) a)) = length (rows a)) ->
  length (c_y c)
    = length (rows (data_y (c_test_set c))) - seq_len (configs (self w))
  ∧ length (r_y r) = length (c_y c)
  ∧ length (r_tabe_pred r) = length (c_y c)
  ∧ length (r_y_hat_cbm r) = length (c_y c)
  ∧ length (r_y_hat_bsm r) = combiner_basemodels (combiner_model (self w))
  ∧ Forall (fun row => length row = length (c_y c)) (r_y_hat_bsm r)
  ∧ length (r_y_hat_q_low r) = length (c_y c)
  ∧ length (r_y_hat_q_high r) = length (c_y c)
  ∧ length (r_devi_stddev r) = length (c_y c).
Proof.
  intros Hc Htest Hrows.
  apply test_Ok in Htest as (c0 & Hc0 & -> & -> & -> & _ & Hout).
  rewrite Hc in Hc0. simplify_eq.
  assert (Hnb : length (b_y_hat_bsm (c_buffers c0))
                = combiner_basemodels (combiner_model (self w))).
  { revert Hc. unfold test_collect, call_get_data_provider, np_empty_like, np_empty2.
    unfold_monad. destruct w as [pr al s]. simpl.
    destruct (get_data_provider (configs s) "test" true pr) as [[[ds dl]|e] p']; [|done].
    destruct (slice_last_col (seq_len (configs s)) (data_y ds)) as [y|e]; [|done].
    simpl.
    destruct (loader_iterate dl) as [bs|e]; [|done].
    match goal with
    | |- context [test_loop ?f 0 ?bs ?b0 ?w0] =>
        destruct (test_loop f 0 bs b0 w0) as [[b'|e] w''] eqn:Hloop; [|done]
    end.
    intros [= <- <-]. simpl.
    apply (test_loop_rows _ (length y)) in Hloop.
    - simpl in Hloop. by rewrite Hloop, length_fmap, length_seq.
    - simpl. apply Forall_fmap, Forall_forall. intros i _. simpl.
      by rewrite length_fmap, length_seq. }
  apply test_collect_Ok in Hc
    as (p' & b0 & _ & Hy & -> & -> & -> & Hl1 & Hl2 & Hl3 & Hloop).
  apply slice_last_col_Ok in Hy as (_ & Hlen & _).
  apply (test_loop_shape _ (length (c_y c0))) in Hloop as (Hs1 & Hs2 & Hs3); [|done].
  rewrite !length_fmap, !length_seq. split; [done|].
  destruct (scale (c_test_set c0) && inverse (configs (self w))).
  - specialize (Hrows eq_refl).
    apply invert_outputs_Ok in Hout as (Hy' & Htp & Hcbm & Hbsm & _).
    apply (reconstruct_transform_extract_length _ _ _ Hrows) in Hy'.
    specialize (Htp ltac:(congruence)). specialize (Hcbm ltac:(congruence)).
    apply (reconstruct_transform_extract_length _ _ _ Hrows) in Htp, Hcbm.
    specialize (Hbsm Hs3 Hrows).
    repeat split; try congruence.
    + apply Forall2_length in Hbsm. congruence.
    + clear Hnb. induction Hbsm as [|raw out raws outs Hro _ IH]; [done|].
      apply Forall_cons in Hs3 as [Hraw Hs3]. constructor; [|by apply IH].
      apply (reconstruct_transform_extract_length _ _ _ Hrows) in Hro. congruence.
  - destruct Hout as (-> & -> & -> & ->). repeat split; congruence.
Qed.

(** X18.  Over a loader that yields no step, and with no inverse
    transformation to apply, [test] returns without calling the combiner or
    the adjuster: the instance is left as it was, the truths are returned,
    and every prediction returned is an unwritten buffer. *)
Theorem test_empty_loader (w : world) test_set test_loader p' y :
  get_data_provider (configs (self w)) "test" true (provider w)
    = (Ok (test_set, test_loader), p') ->
  slice_last_col (seq_len (configs (self w))) (data_y test_set) = Ok y ->
  loader_batches test_loader = [] ->
  scale test_set && inverse (configs (self w)) = false ->
  ∃ r,
    test w = (Ok r, MkWorld p' (7 + allocations w) (self w))
    ∧ r_y r = y
    ∧ r_tabe_pred r = uninitialized (allocations w) <$> seq 0 (length y)
    ∧ r_y_hat_cbm r = uninitialized (2 + allocations w) <$> seq 0 (length y).
Proof.
  intros Hget Hy Hbs Hneed.
  unfold test, test_collect, call_get_data_provider, np_empty_like, np_empty2.
  unfold_monad. destruct w as [pr al s]. simpl in *.
  rewrite Hget, Hy. simpl.
  rewrite (loader_iterate_default test_loader (or_intror Hbs)), Hbs. simpl.
  rewrite Hneed. simpl. eauto.
Qed.

End TabeFacts.

(** * The model at work on the concrete instance *)

Section Runs.
Import Demo.
Open Scope Z_scope.

(** C1, as stated, fails: with an adjuster that echoes the truth it is
    handed, two windows that differ only in the truth entry (30 and the
    sentinel 999) get different predictions from the same state. *)
Lemma proceed_onestep_prediction_follows_truth :
  (proceed_onestep step_x step_y [[]] [[]] true (trained false (Some tt))).1
    = Ok (30, 30, 21, [20; 22])
  ∧ (proceed_onestep step_x (with_item_0_m1_m1 step_y sentinel) [[]] [[]] true
       (trained false (Some tt))).1
    = Ok (999, 999, 21, [20; 22]).
Proof. split; vm_compute; reflexivity. Qed.

(** C3, as stated, fails: with an adjuster whose batch training returns an
    empty series, a completed [train] leaves histories of lengths 0, 2
    and 2. *)
Lemma train_histories_out_of_step :
  (train (world0 false (Some tt))).1 = Ok tt
  ∧ y_hat (self (trained false (Some tt))) = Some []
  ∧ truths (self (trained false (Some tt))) = Some [80; 90]
  ∧ y_hat_cbm (self (trained false (Some tt))) = Some [71; 81].
Proof. repeat split; vm_compute; reflexivity. Qed.

(** A dataset whose loader yields one step less than there are truths:
    [train] stops at its assertion, [test] has no such check and returns
    buffers whose last entries were never written. *)
Example train_online_assertion :
  (train online_world0).1 = Raise AssertionError
  ∧ y_hat_cbm (self (train online_world0).2) = None.
Proof. split; vm_compute; reflexivity. Qed.

(** The demo combiner and adjuster predict before they look at the truth,
    and the sentinel changes nothing. *)
Lemma proceed_onestep_truth_blind_collaborators_witness :
  (∀ c bx by_ bxm bym training v,
     (combiner_proceed_onestep (CS := Z) c bx (with_item_0_m1_m1 by_ v) bxm bym training).1
     = (combiner_proceed_onestep c bx by_ bxm bym training).1)
  ∧ (∀ a y y' p training,
       (adjuster_proceed_onestep (AS := Z) a y' p training).1
       = (adjuster_proceed_onestep a y p training).1)
  ∧ (proceed_onestep step_x (with_item_0_m1_m1 step_y sentinel) [[]] [[]] true
       (trained false (Some 5))).1
    = (proceed_onestep step_x step_y [[]] [[]] true (trained false (Some 5))).1.
Proof.
  split; [intros; reflexivity|]. split; [intros; reflexivity|].
  apply proceed_onestep_truth_blind_collaborators; intros; reflexivity.
Defined.

(** Without an adjuster, on inverted data. *)
Lemma no_adjuster_ensemble_is_combiner_witness :
  adjuster_model (self (trained true (@None Z))) = None
  ∧ (test (trained true (@None Z))).1 = Ok tested_inverted
  ∧ r_tabe_pred tested_inverted = r_y_hat_cbm tested_inverted
  ∧ y_hat (self (test (trained true (@None Z))).2)
    = y_hat_cbm (self (test (trained true (@None Z))).2).
Proof.
  split; [reflexivity|]. split; [vm_compute; reflexivity|]. split; [reflexivity|].
  destruct (no_adjuster_ensemble_is_combiner (trained true (@None Z)) eq_refl)
    as (_ & _ & Htest).
  destruct (Htest tested_inverted (test (trained true (@None Z))).2)
    as (_ & Hhist & _).
  { vm_compute. reflexivity. }
  apply Hhist. vm_compute. reflexivity.
Defined.

Lemma histories_in_step_after_calls_witness :
  (∀ a y p, length p = length y ->
     length (adjuster_train (AS := Z) a y p).1 = length y)
  ∧ reachable (trained true (Some 5))
  ∧ (run_call CallTest (trained true (Some 5))).1 = Ok tt
  ∧ histories_in_step (self (run_call CallTest (trained true (Some 5))).2).
Proof.
  assert (Hadj : ∀ a y p, length p = length y ->
            length (adjuster_train (AS := Z) a y p).1 = length y).
  { intros a y p Hlen. simpl. by rewrite length_fmap. }
  assert (Hreach : reachable (trained true (Some 5))).
  { unfold trained.
    change (reachable (run_call CallTrain (world0 true (Some 5))).2).
    apply reachable_call. unfold world0. apply reachable_init. }
  assert (Hdone : (run_call CallTest (trained true (Some 5))).1 = Ok tt).
  { vm_compute. reflexivity. }
  split; [exact Hadj|]. split; [exact Hreach|]. split; [exact Hdone|].
  exact (proj1 (histories_in_step_after_calls _ CallTest Hadj Hreach Hdone)).
Defined.

Lemma get_data_provider_same_key_same_pair_witness :
  ∃ data_set data_loader p1,
    get_data_provider (demo_configs false) "test" true empty_provider
      = (Ok (data_set, data_loader), p1)
    ∧ demo_configs true ≠ demo_configs false
    ∧ get_data_provider (demo_configs true) "test" true p1
      = (Ok (data_set, data_loader), p1).
Proof.
  destruct (get_data_provider (demo_configs false) "test" true empty_provider)
    as [[[ds dl]|e] p1] eqn:Hfirst; [|vm_compute in Hfirst; discriminate].
  exists ds, dl, p1. split; [reflexivity|]. split; [discriminate|].
  exact (get_data_provider_same_key_same_pair _ (demo_configs true) _ _ _ _ _ _ Hfirst).
Defined.

Lemma data_provider_stepwise_and_test_loader_witness :
  ∃ data_set data_loader,
    _data_provider (demo_configs false) "test" true 0 = Ok (data_set, data_loader)
    ∧ batch_size (demo_configs false) = 32%nat
    ∧ dl_batch_size data_loader = 1%nat ∧ dl_shuffle data_loader = false.
Proof.
  destruct (_data_provider (demo_configs false) "test" true 0)
    as [[ds dl]|e] eqn:Hbuilt; [|vm_compute in Hbuilt; discriminate].
  exists ds, dl. split; [reflexivity|]. split; [reflexivity|].
  exact (proj1 (data_provider_stepwise_and_test_loader _ _ _ _ _ _ Hbuilt) eq_refl).
Defined.

Lemma train_length_assertion_witness :
  ∃ train_dataset train_loader p',
    get_data_provider (configs (self (world0 false (@None Z)))) "ensemble_train" true
      (provider (world0 false (@None Z)))
      = (Ok (train_dataset, train_loader), p')
    ∧ slice_last_col (seq_len (configs (self (world0 false (@None Z)))))
        (data_y train_dataset) = Ok [80; 90]
    ∧ length [80; 90] = length (loader_batches train_loader)
    ∧ dl_collate_max_len train_loader = None
    ∧ (train (world0 false (@None Z))).1 = Ok tt
    ∧ truths (self (train (world0 false (@None Z))).2) = Some [80; 90].
Proof.
  destruct (run_cases (get_data_provider (configs (self (world0 false (@None Z))))
                         "ensemble_train" true (provider (world0 false (@None Z)))))
    as [([ds dl] & p' & Hget)|(e & p' & Hget)]; [|vm_compute in Hget; discriminate].
  assert (Hy : slice_last_col (seq_len (configs (self (world0 false (@None Z)))))
                 (data_y ds) = Ok [80; 90]).
  { vm_compute in Hget. injection Hget as <- _ _. reflexivity. }
  assert (Hlen : length [80; 90] = length (loader_batches dl)).
  { vm_compute in Hget. injection Hget as _ <- _. reflexivity. }
  assert (Hcollate : dl_collate_max_len dl = None).
  { vm_compute in Hget. injection Hget as _ <- _. reflexivity. }
  exists ds, dl, p'.
  split; [exact Hget|]. split; [exact Hy|]. split; [exact Hlen|].
  split; [exact Hcollate|].
  destruct (train_length_assertion (world0 false (@None Z)) ds dl p' [80; 90] Hget Hy)
    as (_ & _ & Hequal).
  destruct (Hequal Hlen) as (_ & Hdefault & _).
  destruct (Hdefault (or_introl Hcollate)) as (Hok & Htruths & _).
  split; [exact Hok | exact Htruths].
Defined.

(** C6 on the concrete instance: the split of [train] has four rows and
    that of [test] five, the input window is 2 long; [train] stores the
    last feature of rows 2 and 3, and [test], on inverted data, returns the
    last feature of rows 2, 3 and 4 put through the reconstruction. *)
Lemma truths_are_target_column_from_seq_len_witness :
  (∃ data_set data_loader p',
     get_data_provider (configs (self (world0 false (@None Z)))) "ensemble_train" true
       (provider (world0 false (@None Z)))
       = (Ok (data_set, data_loader), p')
     ∧ ncols (data_y data_set) ≠ 0%nat
     ∧ Forall (fun row => length row = ncols (data_y data_set)) (rows (data_y data_set))
     ∧ rows (data_y data_set) = [[6; 60]; [7; 70]; [8; 80]; [9; 90]]
     ∧ slice_last_col (seq_len (configs (self (world0 false (@None Z)))))
         (data_y data_set) = Ok [80; 90]
     ∧ train (world0 false (@None Z)) = (Ok tt, trained false None)
     ∧ truths (self (trained false (@None Z))) = Some [80; 90])
  ∧ (∃ data_set data_loader p',
       get_data_provider (configs (self (trained true (@None Z)))) "test" true
         (provider (trained true (@None Z)))
         = (Ok (data_set, data_loader), p')
       ∧ ncols (data_y data_set) ≠ 0%nat
       ∧ Forall (fun row => length row = ncols (data_y data_set)) (rows (data_y data_set))
       ∧ rows (data_y data_set) = [[1; 10]; [2; 20]; [3; 30]; [4; 40]; [5; 50]]
       ∧ slice_last_col (seq_len (configs (self (trained true (@None Z)))))
           (data_y data_set) = Ok [30; 40; 50]
       ∧ test (trained true (@None Z))
         = (Ok tested_inverted, (test (trained true (@None Z))).2)
       ∧ scale data_set && inverse (configs (self (trained true (@None Z)))) = true
       ∧ reconstruct_transform_extract data_set [30; 40; 50]
         = Some (r_y tested_inverted)).
Proof.
  split.
  - destruct (run_cases (get_data_provider (configs (self (world0 false (@None Z))))
                           "ensemble_train" true (provider (world0 false (@None Z)))))
      as [([ds dl] & p' & Hget)|(e & p' & Hget)]; [|vm_compute in Hget; discriminate].
    assert (Hrows : rows (data_y ds) = [[6; 60]; [7; 70]; [8; 80]; [9; 90]]).
    { vm_compute in Hget. injection Hget as <- _ _. reflexivity. }
    assert (Hcols : ncols (data_y ds) = 2%nat).
    { vm_compute in Hget. injection Hget as <- _ _. reflexivity. }
    assert (Hne : ncols (data_y ds) ≠ 0%nat) by (rewrite Hcols; discriminate).
    assert (Hrect : Forall (fun row => length row = ncols (data_y ds)) (rows (data_y ds))).
    { rewrite Hrows, Hcols. repeat constructor. }
    assert (Htrain : train (world0 false (@None Z)) = (Ok tt, trained false None))
      by (vm_compute; reflexivity).
    destruct (truths_are_target_column_from_seq_len (world0 false (@None Z))
                "ensemble_train" ds dl p' (or_introl eq_refl) Hget Hne Hrect)
      as (y & Hy & _ & _ & _ & _ & Hstored & _).
    assert (y = [80; 90]) as ->.
    { unfold slice_last_col in Hy. rewrite Hcols, Hrows in Hy. simpl in Hy.
      by injection Hy as <-. }
    exists ds, dl, p'. split; [exact Hget|]. split; [exact Hne|]. split; [exact Hrect|].
    split; [exact Hrows|]. split; [exact Hy|]. split; [exact Htrain|].
    exact (Hstored eq_refl _ Htrain).
  - destruct (run_cases (get_data_provider (configs (self (trained true (@None Z))))
                           "test" true (provider (trained true (@None Z)))))
      as [([ds dl] & p' & Hget)|(e & p' & Hget)]; [|vm_compute in Hget; discriminate].
    assert (Hrows : rows (data_y ds) = [[1; 10]; [2; 20]; [3; 30]; [4; 40]; [5; 50]]).
    { vm_compute in Hget. injection Hget as <- _ _. reflexivity. }
    assert (Hcols : ncols (data_y ds) = 2%nat).
    { vm_compute in Hget. injection Hget as <- _ _. reflexivity. }
    assert (Hneed : scale ds && inverse (configs (self (trained true (@None Z)))) = true).
    { vm_compute in Hget. injection Hget as <- _ _. vm_compute. reflexivity. }
    assert (Hlen : seq_len (configs (self (trained true (@None Z)))) = 2%nat)
      by (vm_compute; reflexivity).
    assert (Hne : ncols (data_y ds) ≠ 0%nat) by (rewrite Hcols; discriminate).
    assert (Hrect : Forall (fun row => length row = ncols (data_y ds)) (rows (data_y ds))).
    { rewrite Hrows, Hcols. repeat constructor. }
    assert (Htest : test (trained true (@None Z))
                    = (Ok tested_inverted, (test (trained true (@None Z))).2))
      by (vm_compute; reflexivity).
    destruct (truths_are_target_column_from_seq_len (trained true (@None Z))
                "test" ds dl p' (or_intror eq_refl) Hget Hne Hrect)
      as (y & Hy & _ & _ & _ & _ & _ & Hreturned).
    assert (y = [30; 40; 50]) as ->.
    { unfold slice_last_col in Hy. rewrite Hcols, Hrows, Hlen in Hy. simpl in Hy.
      by injection Hy as <-. }
    specialize (Hreturned eq_refl _ _ Htest). rewrite Hneed in Hreturned.
    exists ds, dl, p'. split; [exact Hget|]. split; [exact Hne|]. split; [exact Hrect|].
    split; [exact Hrows|]. split; [exact Hy|]. split; [exact Htest|].
    split; [exact Hneed | exact Hreturned].
Defined.

(** The classification branch builds a loader whose collate function calls
    the undefined name: [train] gets past its assertion, allocates the
    buffer and raises [NameError] when it fetches the first batch. *)
Example train_classification_name_error :
  (train classification_world0).1 = Raise NameError
  ∧ allocations (train classification_world0).2 = 1%nat
  ∧ y_hat_cbm (self (train classification_world0).2) = None.
Proof. repeat split; vm_compute; reflexivity. Qed.

Lemma test_inverse_transform_pattern_witness :
  ∃ c r w',
    test_collect (trained true (Some 5)) = (Ok c, w')
    ∧ test (trained true (Some 5)) = (Ok r, w')
    ∧ scale (c_test_set c) && inverse (configs (self (trained true (Some 5)))) = true
    ∧ b_tabe_pred (c_buffers c) = [26; 48; 42]
    ∧ r_tabe_pred r = [79; 145; 127]
    ∧ reconstruct_transform_extract (c_test_set c) (b_tabe_pred (c_buffers c))
      = Some (r_tabe_pred r).
Proof.
  destruct (run_cases (test_collect (trained true (Some 5))))
    as [(c & w1 & Hc)|(e & w1 & Hc)]; [|vm_compute in Hc; discriminate].
  destruct (run_cases (test (trained true (Some 5))))
    as [(r & w2 & Ht)|(e & w2 & Ht)]; [|vm_compute in Ht; discriminate].
  assert (w2 = w1) as ->.
  { pose proof (test_state (trained true (Some 5))) as Hstate.
    rewrite Hc, Ht in Hstate. exact Hstate. }
  exists c, r, w1.
  assert (Hset : c_test_set c
                 = Data_new 2 Dataset_TABE_File
                     (ForecastArgs (demo_configs true) "./dataset/" "data.csv" "test"
                        [2; 0; 1]%nat "MS" "close" 1 "d" "Monthly")).
  { vm_compute in Hc. by injection Hc as <- _. }
  assert (Hneed : scale (c_test_set c)
                  && inverse (configs (self (trained true (Some 5)))) = true).
  { rewrite Hset. vm_compute. reflexivity. }
  split; [exact Hc|]. split; [exact Ht|]. split; [exact Hneed|].
  split; [vm_compute in Hc; by injection Hc as <- _|].
  split; [vm_compute in Ht; by injection Ht as <- _|].
  refine (proj1 (proj2 (test_inverse_transform_pattern _ c r w1 Hc Ht Hneed _))).
  intros a. rewrite Hset. simpl. unfold rescale. simpl. by rewrite length_fmap.
Defined.

Lemma test_returns_unwritten_buffers_witness :
  (test (trained false (Some 5))).1 = Ok tested_adjusted
  ∧ allocations (trained false (Some 5)) = 1%nat
  ∧ r_buy_threshold_q tested_adjusted = None
  ∧ r_y_hat_q_low tested_adjusted = uninitialized 5 <$> seq 0 3.
Proof.
  split; [vm_compute; reflexivity|]. split; [reflexivity|].
  destruct (test_returns_unwritten_buffers (trained false (Some 5)) tested_adjusted
              (test (trained false (Some 5))).2)
    as (Hnone & ds & dl & p' & y & Hget & Hy & Hlow & _).
  { vm_compute. reflexivity. }
  split; [exact Hnone | reflexivity].
Defined.

End Runs.

(** * Further runs on the concrete instance *)

Section MoreRuns.
Import Demo.
Open Scope Z_scope.

Lemma option_cases {A} (o : option A) : (∃ a, o = Some a) ∨ o = None.
Proof. destruct o; eauto. Qed.

Lemma data_provider_unregistered_name_witness :
  data unknown_configs ≠ "TABE_FILE"%string
  ∧ data unknown_configs ≠ "TABE_ONLINE"%string
  ∧ _data_provider (V := Z) unknown_configs "test" true 0 = Raise KeyError.
Proof.
  assert (H1 : data unknown_configs ≠ "TABE_FILE"%string) by discriminate.
  assert (H2 : data unknown_configs ≠ "TABE_ONLINE"%string) by discriminate.
  split; [exact H1|]. split; [exact H2|].
  exact (proj1 (data_provider_unregistered_name unknown_configs "test" true 0)
           (conj H1 H2)).
Defined.

(** A batch size of 0: the dataset is built, the loader's constructor
    raises, and nothing is cached. *)
Lemma get_data_provider_failure_caches_nothing_witness :
  (get_data_provider zero_batch_configs "train" false empty_provider).1 = Raise ValueError
  ∧ (get_data_provider zero_batch_configs "train" false empty_provider).2 = empty_provider
  ∧ (get_data_provider unknown_configs "test" true empty_provider).1 = Raise KeyError.
Proof.
  assert (H : (get_data_provider zero_batch_configs "train" false empty_provider).1
              = Raise ValueError) by (vm_compute; reflexivity).
  split; [exact H|]. split; [|vm_compute; reflexivity].
  exact (proj1 (get_data_provider_failure_caches_nothing _ _ _ _ _ H)).
Defined.

Lemma get_data_provider_stepwise_key_collision_witness :
  ∃ data_set data_loader p1,
    get_data_provider (demo_configs false) "test_stb" false empty_provider
      = (Ok (data_set, data_loader), p1)
    ∧ get_data_provider (demo_configs true) "test" true p1
      = (Ok (data_set, data_loader), p1)
    ∧ dl_shuffle data_loader = true ∧ dl_batch_size data_loader = 32%nat.
Proof.
  destruct (run_cases (get_data_provider (demo_configs false) "test_stb" false
                         empty_provider))
    as [([ds dl] & p1 & H)|(e & p1 & H)]; [|vm_compute in H; discriminate].
  exists ds, dl, p1. split; [exact H|]. split.
  - exact (get_data_provider_stepwise_key_collision
             (demo_configs false) (demo_configs true) "test" _ _ _ _ H).
  - vm_compute in H. injection H as <- <- _. split; reflexivity.
Defined.

Lemma get_data_provider_outcomes_witness :
  provider_reachable
    (get_data_provider (demo_configs false) "test" true empty_provider).2
  ∧ (get_data_provider unknown_configs "val" false
       (get_data_provider (demo_configs false) "test" true empty_provider).2).1
    = Raise KeyError
  ∧ ∃ data_set data_loader,
      get_data_provider unknown_configs "test" true
        (get_data_provider (demo_configs false) "test" true empty_provider).2
      = (Ok (data_set, data_loader),
         (get_data_provider (demo_configs false) "test" true empty_provider).2)
      ∧ dl_dataset data_loader = data_set.
Proof.
  assert (Hreach : provider_reachable
            (get_data_provider (demo_configs false) "test" true empty_provider).2).
  { apply provider_requested. unfold empty_provider. apply provider_loaded. }
  split; [exact Hreach|]. split; [vm_compute; reflexivity|].
  destruct (get_data_provider_outcomes unknown_configs "test" true _ Hreach)
    as (Hhit & Hpair & _).
  destruct Hhit as (ds & dl & Hrun).
  { destruct (option_cases (_cache_dataset
                (get_data_provider (demo_configs false) "test" true empty_provider).2
                !! cache_key "test" true)) as [[d Hd]|Hd];
      [exists d; exact Hd | vm_compute in Hd; discriminate]. }
  exists ds, dl. split; [exact Hrun|]. apply Hpair. rewrite Hrun. reflexivity.
Defined.

Lemma provider_objects_not_shared_witness :
  provider_reachable
    (get_data_provider (demo_configs false) "train" false
       (get_data_provider (demo_configs false) "test" true empty_provider).2).2
  ∧ ∃ d1 d2,
      _cache_dataset
        (get_data_provider (demo_configs false) "train" false
           (get_data_provider (demo_configs false) "test" true empty_provider).2).2
        !! "test_stb"%string = Some d1
      ∧ _cache_dataset
          (get_data_provider (demo_configs false) "train" false
             (get_data_provider (demo_configs false) "test" true empty_provider).2).2
          !! "train"%string = Some d2
      ∧ ds_id d1 ≠ ds_id d2.
Proof.
  assert (Hreach : provider_reachable
            (get_data_provider (demo_configs false) "train" false
               (get_data_provider (demo_configs false) "test" true
                  empty_provider).2).2).
  { do 2 apply provider_requested. unfold empty_provider. apply provider_loaded. }
  split; [exact Hreach|].
  destruct (option_cases (_cache_dataset
              (get_data_provider (demo_configs false) "train" false
                 (get_data_provider (demo_configs false) "test" true
                    empty_provider).2).2 !! "test_stb"%string))
    as [[d1 H1]|H1]; [|vm_compute in H1; discriminate].
  destruct (option_cases (_cache_dataset
              (get_data_provider (demo_configs false) "train" false
                 (get_data_provider (demo_configs false) "test" true
                    empty_provider).2).2 !! "train"%string))
    as [[d2 H2]|H2]; [|vm_compute in H2; discriminate].
  exists d1, d2. split; [exact H1|]. split; [exact H2|].
  exact (proj1 (provider_objects_not_shared _ Hreach) _ _ _ _ H1 H2 ltac:(discriminate)).
Defined.

Lemma data_provider_loader_settings_witness :
  ∃ data_set data_loader,
    _data_provider (demo_configs false) "train" false 0 = Ok (data_set, data_loader)
    ∧ dl_shuffle data_loader = true
    ∧ dl_batch_size data_loader = 32%nat
    ∧ dl_drop_last data_loader = false.
Proof.
  destruct (_data_provider (demo_configs false) "train" false 0)
    as [[ds dl]|e] eqn:Hbuilt; [|vm_compute in Hbuilt; discriminate].
  exists ds, dl. split; [reflexivity|].
  destruct (data_provider_loader_settings _ _ _ _ _ _ Hbuilt)
    as (Hsh & Hbs & Hdrop & _).
  split; [apply Hsh; repeat split; discriminate|].
  split; [exact (Hbs eq_refl) | exact Hdrop].
Defined.

Lemma train_collects_combiner_predictions_witness :
  train (world0 false (@None Z)) = (Ok tt, trained false None)
  ∧ y_hat_cbm (self (trained false (@None Z))) = Some [71; 81]
  ∧ ∃ train_dataset train_loader p',
      get_data_provider (demo_configs false) "ensemble_train" true empty_provider
        = (Ok (train_dataset, train_loader), p')
      ∧ y_hat_cbm (self (trained false (@None Z)))
        = Some (data_y_astype train_dataset
                  <$> (combiner_predictions (combiner_train 0)
                         (loader_batches train_loader) None).1)
      ∧ combiner_model (self (trained false (@None Z)))
        = (combiner_predictions (combiner_train 0)
             (loader_batches train_loader) None).2.
Proof.
  assert (H : train (world0 false (@None Z)) = (Ok tt, trained false None))
    by (vm_compute; reflexivity).
  split; [exact H|]. split; [vm_compute; reflexivity|].
  exact (train_collects_combiner_predictions _ _ H).
Defined.

Lemma train_again_witness :
  train (world0 false (Some 5)) = (Ok tt, trained false (Some 5))
  ∧ (train (trained false (Some 5))).1 = Ok tt
  ∧ provider (train (trained false (Some 5))).2 = provider (trained false (Some 5))
  ∧ truths (self (train (trained false (Some 5))).2)
    = truths (self (trained false (Some 5))).
Proof.
  assert (H : train (world0 false (Some 5)) = (Ok tt, trained false (Some 5)))
    by (vm_compute; reflexivity).
  split; [exact H|]. exact (train_again _ _ H).
Defined.

Lemma proceed_onestep_before_train_witness :
  length step_x = 1%nat ∧ length step_y = 1%nat
  ∧ item_0_m1_m1 step_y = Ok 30
  ∧ y_hat_cbm (self (world0 false (Some 5))) = None
  ∧ (proceed_onestep step_x step_y [[]] [[]] true (world0 false (Some 5))).1
    = Raise AttributeError
  ∧ combiner_model (self (world0 false (Some 5))) = 0
  ∧ combiner_model
      (self (proceed_onestep step_x step_y [[]] [[]] true (world0 false (Some 5))).2)
    = 10
  ∧ adjuster_model
      (self (proceed_onestep step_x step_y [[]] [[]] true (world0 false (Some 5))).2)
    = Some 10.
Proof.
  split; [reflexivity|]. split; [reflexivity|]. split; [reflexivity|].
  split; [reflexivity|].
  rewrite (proceed_onestep_before_train step_x step_y [[]] [[]] true
             (world0 false (Some 5)) 30 eq_refl eq_refl eq_refl eq_refl).
  repeat split; vm_compute; reflexivity.
Defined.

Lemma proceed_onestep_empty_target_witness :
  length step_x = 1%nat ∧ length (A := list (list Z)) [[]] = 1%nat
  ∧ (∀ y, item_0_m1_m1 (V := Z) [[]] ≠ Ok y)
  ∧ proceed_onestep step_x [[]] [[]] [[]] true (trained false (Some 5))
    = (Raise IndexError, trained false (Some 5)).
Proof.
  split; [reflexivity|]. split; [reflexivity|].
  split; [intros y; discriminate|].
  apply proceed_onestep_empty_target; [reflexivity | reflexivity |].
  intros y. discriminate.
Defined.

Lemma test_records_steps_witness :
  test (trained false (Some 5)) = (Ok tested_adjusted, (test (trained false (Some 5))).2)
  ∧ y_hat (self (trained false (Some 5))) = Some [76; 86]
  ∧ truths (self (trained false (Some 5))) = Some [80; 90]
  ∧ y_hat_cbm (self (trained false (Some 5))) = Some [71; 81]
  ∧ truths (self (test (trained false (Some 5))).2) = Some [80; 90; 30; 40; 50]
  ∧ ∃ c ys qs ps,
      test_collect (trained false (Some 5)) = (Ok c, (test (trained false (Some 5))).2)
      ∧ Forall2 (fun x y => item_0_m1_m1 (batch_y x) = Ok y)
          (loader_batches (c_test_loader c)) ys
      ∧ length qs = length (loader_batches (c_test_loader c))
      ∧ length ps = length (loader_batches (c_test_loader c))
      ∧ truths (self (test (trained false (Some 5))).2) = Some ([80; 90] ++ ys)
      ∧ y_hat (self (test (trained false (Some 5))).2) = Some ([76; 86] ++ qs)
      ∧ y_hat_cbm (self (test (trained false (Some 5))).2) = Some ([71; 81] ++ ps)
      ∧ take (length (loader_batches (c_test_loader c))) (b_tabe_pred (c_buffers c))
        = data_y_astype (c_test_set c) <$> qs
      ∧ take (length (loader_batches (c_test_loader c))) (b_y_hat_cbm (c_buffers c))
        = data_y_astype (c_test_set c) <$> ps.
Proof.
  assert (Ht : test (trained false (Some 5))
               = (Ok tested_adjusted, (test (trained false (Some 5))).2))
    by (vm_compute; reflexivity).
  assert (H1 : y_hat (self (trained false (Some 5))) = Some [76; 86])
    by (vm_compute; reflexivity).
  assert (H2 : truths (self (trained false (Some 5))) = Some [80; 90])
    by (vm_compute; reflexivity).
  assert (H3 : y_hat_cbm (self (trained false (Some 5))) = Some [71; 81])
    by (vm_compute; reflexivity).
  split; [exact Ht|]. split; [exact H1|]. split; [exact H2|]. split; [exact H3|].
  split; [vm_compute; reflexivity|].
  exact (test_records_steps _ _ _ _ _ _ Ht H1 H2 H3).
Defined.

Lemma test_loop_overrun_witness :
  (length (b_tabe_pred no_buffers) ≤ 0)%nat
  ∧ proceed_onestep (batch_x step_window) (batch_y step_window)
      (batch_x_mark step_window) (batch_y_mark step_window) true (trained false (@None Z))
    = (Ok (21, 21, 21, [20; 22]),
       (proceed_onestep step_x step_y [[]] [[]] true (trained false (@None Z))).2)
  ∧ test_loop (fun x => x) 0 [step_window] no_buffers (trained false (@None Z))
    = (Raise IndexError,
       (proceed_onestep step_x step_y [[]] [[]] true (trained false (@None Z))).2)
  ∧ truths (self (proceed_onestep step_x step_y [[]] [[]] true
                    (trained false (@None Z))).2) = Some [80; 90; 30].
Proof.
  assert (Hstep : proceed_onestep (batch_x step_window) (batch_y step_window)
            (batch_x_mark step_window) (batch_y_mark step_window) true
            (trained false (@None Z))
          = (Ok (21, 21, 21, [20; 22]),
             (proceed_onestep step_x step_y [[]] [[]] true (trained false (@None Z))).2))
    by (vm_compute; reflexivity).
  split; [reflexivity|]. split; [exact Hstep|].
  split; [|vm_compute; reflexivity].
  exact (proj1 (test_loop_overrun (fun x => x) 0 step_window [] no_buffers _ _ _
                  (le_n 0) Hstep)).
Defined.

Lemma test_loop_width_mismatch_witness :
  proceed_onestep (batch_x step_window) (batch_y step_window)
    (batch_x_mark step_window) (batch_y_mark step_window) true (trained false (@None Z))
  = (Ok (21, 21, 21, [20; 22]),
     (proceed_onestep step_x step_y [[]] [[]] true (trained false (@None Z))).2)
  ∧ length (b_y_hat_bsm three_row_buffers) = 3%nat
  ∧ test_loop (fun x => x) 0 [step_window] three_row_buffers (trained false (@None Z))
    = (Raise ValueError,
       (proceed_onestep step_x step_y [[]] [[]] true (trained false (@None Z))).2).
Proof.
  assert (Hstep : proceed_onestep (batch_x step_window) (batch_y step_window)
            (batch_x_mark step_window) (batch_y_mark step_window) true
            (trained false (@None Z))
          = (Ok (21, 21, 21, [20; 22]),
             (proceed_onestep step_x step_y [[]] [[]] true (trained false (@None Z))).2))
    by (vm_compute; reflexivity).
  split; [exact Hstep|]. split; [reflexivity|].
  apply (test_loop_width_mismatch (fun x => x) 0 step_window [] three_row_buffers
           _ _ _ _ _ _ Hstep);
    simpl; try lia.
  repeat constructor.
Defined.

Lemma test_result_shapes_witness :
  ∃ c r w',
    test_collect (trained true (Some 5)) = (Ok c, w')
    ∧ test (trained true (Some 5)) = (Ok r, w')
    ∧ (∀ a, length (rows (inverse_transform (c_test_set c) a)) = length (rows a))
    ∧ length (c_y c) = 3%nat
    ∧ length (r_tabe_pred r) = length (c_y c)
    ∧ length (r_y_hat_bsm r) = 2%nat
    ∧ Forall (fun row => length row = length (c_y c)) (r_y_hat_bsm r).
Proof.
  destruct (run_cases (test_collect (trained true (Some 5))))
    as [(c & w1 & Hc)|(e & w1 & Hc)]; [|vm_compute in Hc; discriminate].
  destruct (run_cases (test (trained true (Some 5))))
    as [(r & w2 & Ht)|(e & w2 & Ht)]; [|vm_compute in Ht; discriminate].
  assert (w2 = w1) as ->.
  { pose proof (test_state (trained true (Some 5))) as Hstate.
    rewrite Hc, Ht in Hstate. exact Hstate. }
  exists c, r, w1.
  assert (Hset : c_test_set c
                 = Data_new 2 Dataset_TABE_File
                     (ForecastArgs (demo_configs true) "./dataset/" "data.csv" "test"
                        [2; 0; 1]%nat "MS" "close" 1 "d" "Monthly")).
  { vm_compute in Hc. by injection Hc as <- _. }
  assert (Hrows : ∀ a, length (rows (inverse_transform (c_test_set c) a))
                       = length (rows a)).
  { intros a. rewrite Hset. simpl. unfold rescale. simpl. by rewrite length_fmap. }
  split; [exact Hc|]. split; [exact Ht|]. split; [exact Hrows|].
  split; [vm_compute in Hc; by injection Hc as <- _|].
  destruct (test_result_shapes _ c r w1 Hc Ht (fun _ => Hrows))
    as (_ & _ & Htp & _ & Hnb & Hbsm & _).
  split; [exact Htp|]. split; [|exact Hbsm].
  rewrite Hnb. vm_compute. reflexivity.
Defined.

Lemma test_empty_loader_witness :
  ∃ test_set test_loader p',
    get_data_provider long_window_configs "test" true empty_provider
      = (Ok (test_set, test_loader), p')
    ∧ slice_last_col 5 (data_y test_set) = Ok []
    ∧ loader_batches test_loader = []
    ∧ scale test_set && inverse long_window_configs = false
    ∧ ∃ r, test long_window_world0
           = (Ok r, MkWorld p' 7 (self long_window_world0))
        ∧ r_y r = [].
Proof.
  destruct (run_cases (get_data_provider long_window_configs "test" true empty_provider))
    as [([ds dl] & p' & H)|(e & p' & H)]; [|vm_compute in H; discriminate].
  exists ds, dl, p'.
  assert (Hy : slice_last_col 5 (data_y ds) = Ok []).
  { pose proof H as H'. vm_compute in H'. injection H' as <- _ _.
    vm_compute. reflexivity. }
  assert (Hbs : loader_batches dl = []).
  { pose proof H as H'. vm_compute in H'. injection H' as _ <- _.
    vm_compute. reflexivity. }
  assert (Hneed : scale ds && inverse long_window_configs = false).
  { apply andb_false_r. }
  split; [exact H|]. split; [exact Hy|]. split; [exact Hbs|]. split; [exact Hneed|].
  destruct (test_empty_loader long_window_world0 ds dl p' [] H Hy Hbs Hneed)
    as (r & Hr & Hry & _).
  exists r. split; [exact Hr | exact Hry].
Defined.

End MoreRuns.
